(** * pymap.backend.session: the key-value session core

    A shallow embedding of [KeyValSession] (src/pymap/backend/session.py):
    the view synchronisation [_load_updates], the resolution
    [_find_selected], the wait [_wait_for_updates] and the operations
    Append, Select, Check, Fetch, Expunge, Copy and Update-Flags, with the
    collaborators they call, followed by the properties of the
    synchronisation, recency and read-only protocols.

    Python objects with identity live in a store: mailboxes are held by
    name, selected views by reference.  A coroutine is a function of the
    store that returns an outcome (a value or a raised exception) and the
    store it leaves behind; a raised exception does not roll anything back.
    The operations of one session run one after the other: what other
    sessions do in between shows as the store an operation starts from. *)

From Stdlib Require Import ZArith QArith Qminmax String List Bool Lia.
From stdpp Require Import base option gmap strings list fin_maps sorting.

Local Open Scope Z_scope.
Local Open Scope string_scope.
Local Open Scope list_scope.

(** ** Flags and messages *)

(** [pymap.parsing.specials.flag.Flag] wraps the flag's bytes. *)
Abbreviation Flag := string (only parsing).

Definition Seen : Flag := "\Seen".
Definition Deleted : Flag := "\Deleted".

(** [pymap.flags.FlagOp]. *)
Inductive FlagOp := REPLACE | ADD | DELETE.

(** [KeyValMessage]: the attributes the session reads and writes. *)
Record KeyValMessage := mkMessage {
  msg_uid : Z;
  msg_permanent_flags : gset Flag;
  msg_recent : bool;
  msg_contents : string
}.

Definition set_msg_recent (b : bool) (m : KeyValMessage) : KeyValMessage :=
  {| msg_uid := msg_uid m; msg_permanent_flags := msg_permanent_flags m;
     msg_recent := b; msg_contents := msg_contents m |}.

Definition set_msg_flags (fl : gset Flag) (m : KeyValMessage) : KeyValMessage :=
  {| msg_uid := msg_uid m; msg_permanent_flags := fl;
     msg_recent := msg_recent m; msg_contents := msg_contents m |}.

Definition set_msg_uid (u : Z) (m : KeyValMessage) : KeyValMessage :=
  {| msg_uid := u; msg_permanent_flags := msg_permanent_flags m;
     msg_recent := msg_recent m; msg_contents := msg_contents m |}.

Definition apply_flag_op (mode : FlagOp) (old new : gset Flag) : gset Flag :=
  match mode with
  | REPLACE => new
  | ADD => old ∪ new
  | DELETE => old ∖ new
  end.

(** [msg.update_flags(flag_set, mode)]. *)
Definition msg_update_flags (fl : gset Flag) (mode : FlagOp)
    (m : KeyValMessage) : KeyValMessage :=
  set_msg_flags (apply_flag_op mode (msg_permanent_flags m) fl) m.

(** ** Selected views *)

(** Modelled from the spec: [pymap.selected.SessionFlags] is not part of
    the sources; it maps UIDs to session-local flags, recency first. *)
Record SessionFlags := mkSessionFlags {
  sf_recent : gset Z;
  sf_flags : gmap Z (gset Flag)
}.

Definition add_recent (u : Z) (sf : SessionFlags) : SessionFlags :=
  {| sf_recent := {[u]} ∪ sf_recent sf; sf_flags := sf_flags sf |}.

Definition session_flags_update (u : Z) (fl : gset Flag) (mode : FlagOp)
    (sf : SessionFlags) : SessionFlags :=
  {| sf_recent := sf_recent sf;
     sf_flags := <[u := apply_flag_op mode (default ∅ (sf_flags sf !! u)) fl]>
                   (sf_flags sf) |}.

(** Modelled from the spec: [pymap.selected.SelectedMailbox] is not part
    of the sources.  The fields are those of the spec's SelectedView; the
    membership map carries what the reconciliation step has been fed. *)
Record SelectedMailbox := mkSelected {
  sel_name : string;
  sel_readonly : bool;
  sel_uid_validity : option Z;
  sel_deleted : bool;
  sel_messages : gmap Z (gset Flag);
  sel_session_flags : SessionFlags
}.

Definition new_selected (name : string) (readonly : bool) : SelectedMailbox :=
  {| sel_name := name; sel_readonly := readonly; sel_uid_validity := None;
     sel_deleted := false; sel_messages := ∅;
     sel_session_flags := mkSessionFlags ∅ ∅ |}.

(** Modelled from the spec: [set_deleted] sets the view's deleted marker. *)
Definition set_deleted (v : SelectedMailbox) : SelectedMailbox :=
  {| sel_name := sel_name v; sel_readonly := sel_readonly v;
     sel_uid_validity := sel_uid_validity v; sel_deleted := true;
     sel_messages := sel_messages v;
     sel_session_flags := sel_session_flags v |}.

(** Modelled from the spec: [set_uid_validity] copies the mailbox's
    uidValidity into the view. *)
Definition set_uid_validity (uv : Z) (v : SelectedMailbox) : SelectedMailbox :=
  {| sel_name := sel_name v; sel_readonly := sel_readonly v;
     sel_uid_validity := Some uv; sel_deleted := sel_deleted v;
     sel_messages := sel_messages v;
     sel_session_flags := sel_session_flags v |}.

(** Modelled from the spec: [add_messages] feeds one (uid, permanent flags)
    pair to the view's reconciliation step, which records the UID with its
    flags and leaves the session flags alone. *)
Definition add_messages (um : Z * gset Flag) (v : SelectedMailbox)
    : SelectedMailbox :=
  {| sel_name := sel_name v; sel_readonly := sel_readonly v;
     sel_uid_validity := sel_uid_validity v; sel_deleted := sel_deleted v;
     sel_messages := <[um.1 := um.2]> (sel_messages v);
     sel_session_flags := sel_session_flags v |}.

Definition with_session_flags (f : SessionFlags -> SessionFlags)
    (v : SelectedMailbox) : SelectedMailbox :=
  {| sel_name := sel_name v; sel_readonly := sel_readonly v;
     sel_uid_validity := sel_uid_validity v; sel_deleted := sel_deleted v;
     sel_messages := sel_messages v;
     sel_session_flags := f (sel_session_flags v) |}.

(** ** Events *)

(** Modelled from the spec: [pymap.concurrent.Event] is not part of the
    sources.  An event is a flag that [set] raises; [set_after] is the
    delay, in time units from now, after which another task raises it
    ([None]: nobody does). *)
Record Event := mkEvent {
  is_set : bool;
  set_after : option Q
}.

Definition event_set (e : Event) : Event :=
  {| is_set := true; set_after := set_after e |}.

(** ** Mailboxes *)

(** A reference to a selected view. *)
Abbreviation ref := nat (only parsing).

(** Modelled from the spec: the SelectionRegistry ([SelectedSet]) is not
    part of the sources.  It holds the views that have the mailbox open, the
    latest first, and the mailbox's change signal. *)
Record SelectedSet := mkSelectedSet {
  registered : list ref;
  updated : Event
}.

(** Modelled from the spec: [any_selected] is any currently selected view of
    the registry, absent when there is none. *)
Definition any_selected (s : SelectedSet) : option ref := head (registered s).

(** Modelled from the spec: [KeyValMailbox] is declared outside the
    sources.  The messages are those the store holds durably, in UID
    order; [mbx_next_uid] is the UID the next added message receives. *)
Record KeyValMailbox := mkMailbox {
  mbx_uid_validity : Z;
  mbx_readonly : bool;
  mbx_permanent_flags : gset Flag;
  mbx_session_flags : gset Flag;
  mbx_messages : list KeyValMessage;
  mbx_next_uid : Z;
  selected_set : SelectedSet
}.

Definition with_messages (f : list KeyValMessage -> list KeyValMessage)
    (m : KeyValMailbox) : KeyValMailbox :=
  {| mbx_uid_validity := mbx_uid_validity m; mbx_readonly := mbx_readonly m;
     mbx_permanent_flags := mbx_permanent_flags m;
     mbx_session_flags := mbx_session_flags m;
     mbx_messages := f (mbx_messages m); mbx_next_uid := mbx_next_uid m;
     selected_set := selected_set m |}.

Definition with_selected_set (f : SelectedSet -> SelectedSet)
    (m : KeyValMailbox) : KeyValMailbox :=
  {| mbx_uid_validity := mbx_uid_validity m; mbx_readonly := mbx_readonly m;
     mbx_permanent_flags := mbx_permanent_flags m;
     mbx_session_flags := mbx_session_flags m;
     mbx_messages := mbx_messages m; mbx_next_uid := mbx_next_uid m;
     selected_set := f (selected_set m) |}.

(** ** The store and the coroutine monad *)

(** A mailbox handle is the name under which the store holds the mailbox:
    [mbx.name] of a handle is the handle itself. *)
Abbreviation handle := string (only parsing).

Record World := mkWorld {
  mailboxes : gmap string KeyValMailbox;
  views : gmap nat SelectedMailbox;
  next_uid_validity : Z
}.

(** The exceptions.  [InvalidReference] stands for the use of a reference
    that the store does not hold; a Python reference keeps its object alive,
    so the sources cannot raise it. *)
Inductive exn :=
| MailboxNotFound (name : string)
| MailboxReadOnly (name : string)
| TimeoutError
| AttributeError
| InvalidReference.

Inductive outcome (A : Type) :=
| Return (a : A)
| Raise (e : exn).
Arguments Return {A} a.
Arguments Raise {A} e.

Definition M (A : Type) : Type := World -> outcome A * World.

Definition ret {A} (a : A) : M A := fun w => (Return a, w).
Definition raise {A} (e : exn) : M A := fun w => (Raise e, w).
Definition bind {A B} (m : M A) (k : A -> M B) : M B :=
  fun w => match m w with
           | (Return a, w') => k a w'
           | (Raise e, w') => (Raise e, w')
           end.

Declare Scope session_scope.
Delimit Scope session_scope with session.
Notation "x <- m ;; k" := (bind m (fun x => k))
  (at level 100, m at next level, right associativity) : session_scope.
Notation "m ;;; k" := (bind m (fun _ => k))
  (at level 100, right associativity) : session_scope.
Local Open Scope session_scope.

Definition is_not_found (e : exn) : bool :=
  match e with MailboxNotFound _ => true | _ => false end.

(** [try: m except MailboxNotFound: h]. *)
Definition except_not_found {A} (m : M A) (h : M A) : M A :=
  fun w => match m w with
           | (Raise e, w') => if is_not_found e then h w' else (Raise e, w')
           | r => r
           end.

Definition get_view (r : ref) : M SelectedMailbox :=
  fun w => match views w !! r with
           | Some v => (Return v, w)
           | None => (Raise InvalidReference, w)
           end.

Definition set_view (r : ref) (v : SelectedMailbox) (w : World) : World :=
  {| mailboxes := mailboxes w; views := <[r := v]> (views w);
     next_uid_validity := next_uid_validity w |}.

Definition set_mbx (h : handle) (m : KeyValMailbox) (w : World) : World :=
  {| mailboxes := <[h := m]> (mailboxes w); views := views w;
     next_uid_validity := next_uid_validity w |}.

Definition put_view (r : ref) (v : SelectedMailbox) : M unit :=
  fun w => (Return tt, set_view r v w).

Definition update_view (r : ref) (f : SelectedMailbox -> SelectedMailbox) : M unit :=
  v <- get_view r ;; put_view r (f v).

Definition get_mbx (h : handle) : M KeyValMailbox :=
  fun w => match mailboxes w !! h with
           | Some m => (Return m, w)
           | None => (Raise InvalidReference, w)
           end.

Definition put_mbx (h : handle) (m : KeyValMailbox) : M unit :=
  fun w => (Return tt, set_mbx h m w).

Definition update_mbx (h : handle) (f : KeyValMailbox -> KeyValMailbox) : M unit :=
  m <- get_mbx h ;; put_mbx h (f m).

(** ** The mailbox store *)

Definition default_permanent_flags : gset Flag :=
  {[ Seen; Deleted; "\Answered"; "\Flagged"; "\Draft" ]}.

Definition default_session_flags : gset Flag := {[ "\Recent" ]}.

(** Modelled from the spec: a mailbox created on demand is empty and
    writable, nobody has it selected, and it opens a new uidValidity. *)
Definition new_mailbox (uid_validity : Z) : KeyValMailbox :=
  {| mbx_uid_validity := uid_validity; mbx_readonly := false;
     mbx_permanent_flags := default_permanent_flags;
     mbx_session_flags := default_session_flags;
     mbx_messages := []; mbx_next_uid := 1;
     selected_set := mkSelectedSet [] (mkEvent false None) |}.

(** The store after a mailbox of that name was created. *)
Definition created (name : string) (w : World) : World :=
  {| mailboxes := <[name := new_mailbox (next_uid_validity w)]> (mailboxes w);
     views := views w;
     next_uid_validity := next_uid_validity w + 1 |}.

(** Modelled from the spec: [inbox.get_mailbox(name, try_create)] resolves
    a name to a handle or raises [MailboxNotFound]; with [try_create] a
    missing mailbox is created instead. *)
Definition get_mailbox (name : string) (try_create : bool) : M handle :=
  fun w => match mailboxes w !! name with
           | Some _ => (Return name, w)
           | None =>
               if try_create then (Return name, created name w)
               else (Raise (MailboxNotFound name), w)
           end.

(** Modelled from the spec: [mbx.messages()] and [mbx.items()] yield the
    stored messages in UID order, as message objects of the caller's: what the
    caller changes in them reaches the store when [save_flags] persists it. *)
Definition messages (mbx : handle) : M (list KeyValMessage) :=
  m <- get_mbx mbx ;; ret (mbx_messages m).

Definition items (mbx : handle) : M (list (Z * KeyValMessage)) :=
  m <- get_mbx mbx ;; ret ((fun msg => (msg_uid msg, msg)) <$> mbx_messages m).

(** The message as it is stored: under a UID, with a recency. *)
Definition stamp (uid : Z) (recent : bool) (msg : KeyValMessage)
    : KeyValMessage :=
  set_msg_recent recent (set_msg_uid uid msg).

Definition push (stored : KeyValMessage) (m : KeyValMailbox) : KeyValMailbox :=
  {| mbx_uid_validity := mbx_uid_validity m; mbx_readonly := mbx_readonly m;
     mbx_permanent_flags := mbx_permanent_flags m;
     mbx_session_flags := mbx_session_flags m;
     mbx_messages := mbx_messages m ++ [stored];
     mbx_next_uid := mbx_next_uid m + 1;
     selected_set := selected_set m |}.

(** Modelled from the spec: [mbx.add(msg, recent)] stores the message under
    the next UID with the given recency and returns the stored message. *)
Definition add (mbx : handle) (msg : KeyValMessage) (recent : bool)
    : M KeyValMessage :=
  m <- get_mbx mbx ;;
  let stored := stamp (mbx_next_uid m) recent msg in
  put_mbx mbx (push stored m) ;;;
  ret stored.

(** Modelled from the spec: [mbx.delete(uid)] removes the message. *)
Definition delete_msg (mbx : handle) (u : Z) : M unit :=
  update_mbx mbx
    (with_messages (filter (fun msg => msg_uid msg ≠ u))).

(** What a call passes in a variadic argument list: a message, or the
    generator object of a generator expression over messages. *)
Inductive pyobj :=
| PyMsg (m : KeyValMessage)
| PyGen (ms : list KeyValMessage).

Definition store_flags (src : KeyValMessage) (stored : KeyValMessage)
    : KeyValMessage :=
  if decide (msg_uid stored = msg_uid src)
  then set_msg_recent (msg_recent src)
         (set_msg_flags (msg_permanent_flags src) stored)
  else stored.

(** Modelled from the spec: [mbx.save_flags( *messages )] persists the flags
    and the recency of each message of the batch, found by its UID.  It
    reads the UID and the flags of every argument; an argument that is not
    a message has neither, and reading them raises [AttributeError]. *)
Fixpoint save_flags (mbx : handle) (args : list pyobj) : M unit :=
  match args with
  | [] => ret tt
  | PyMsg msg :: rest =>
      update_mbx mbx (with_messages (fmap (store_flags msg))) ;;;
      save_flags mbx rest
  | PyGen _ :: _ => raise AttributeError
  end.

Definition signal (m : KeyValMailbox) : KeyValMailbox :=
  with_selected_set
    (fun s => {| registered := registered s; updated := event_set (updated s) |})
    m.

(** [mbx.selected_set.updated.set()]. *)
Definition set_updated (mbx : handle) : M unit := update_mbx mbx signal.

(** Modelled from the spec: [MailboxSnapshot], the point-in-time summary
    reported to the protocol peer. *)
Record MailboxSnapshot := mkSnapshot {
  snap_readonly : bool;
  snap_uid_validity : Z;
  snap_exists : nat;
  snap_recent : nat;
  snap_next_uid : Z
}.

Definition snapshot_of (m : KeyValMailbox) : MailboxSnapshot :=
  {| snap_readonly := mbx_readonly m;
     snap_uid_validity := mbx_uid_validity m;
     snap_exists := length (mbx_messages m);
     snap_recent := length (filter (fun msg => msg_recent msg = true)
                              (mbx_messages m));
     snap_next_uid := mbx_next_uid m |}.

Definition snapshot (mbx : handle) : M MailboxSnapshot :=
  m <- get_mbx mbx ;; ret (snapshot_of m).

Definition register (r : ref) (m : KeyValMailbox) : KeyValMailbox :=
  with_selected_set
    (fun s => {| registered := r :: registered s; updated := updated s |}) m.

(** Modelled from the spec: [SelectedMailbox(name, readonly, selected_set)]
    makes a new view and binds it to the mailbox's registry. *)
Definition SelectedMailbox_new (name : string) (readonly : bool)
    (mbx : handle) : M ref :=
  fun w =>
    let r := fresh (dom (views w)) in
    (put_view r (new_selected name readonly) ;;;
     update_mbx mbx (register r) ;;;
     ret r) w.

(** ** Waiting for changes *)

Definition min_delay (a b : option Q) : option Q :=
  match a, b with
  | Some x, Some y => Some (Qmin x y)
  | Some x, None => Some x
  | None, b => b
  end.

(** Modelled from the spec: [a.or_event(b)] is set as soon as one of the two
    events is. *)
Definition or_event (a b : Event) : Event :=
  {| is_set := is_set a || is_set b;
     set_after := min_delay (set_after a) (set_after b) |}.

(** The delay after which an event is found set: none for one that is set
    already. *)
Definition fires_after (e : Event) : option Q :=
  if is_set e then Some 0%Q else set_after e.

(** Modelled from the spec: [event.wait(timeout)] returns once the event is
    set and raises [TimeoutError] when the timeout expires first.  The
    second component is the time spent waiting. *)
Definition event_wait (e : Event) (timeout : Q) : outcome bool * Q :=
  match fires_after e with
  | Some d => if Qle_bool d timeout then (Return true, d)
              else (Raise TimeoutError, timeout)
  | None => (Raise TimeoutError, timeout)
  end.

(** [KeyValSession._wait_for_updates]: the result and the time spent. *)
Definition _wait_for_updates (mbx : KeyValMailbox) (wait_on : Event)
    : outcome unit * Q :=
  let or_ev := or_event wait_on (updated (selected_set mbx)) in
  match event_wait or_ev 10%Q with
  | (Return _, t) => (Return tt, t)
  | (Raise TimeoutError, t) => (Return tt, t)
  | (Raise e, t) => (Raise e, t)
  end.

(** ** The session *)

(** [attr.set_seen] of a [FetchAttribute]. *)
Record FetchAttribute := mkFetchAttribute {
  attr_name : string;
  set_seen : bool
}.

(** [AppendUid(validity, uids)] and [CopyUid(validity, uids)]. *)
Definition AppendUid : Type := Z * list Z.
Definition CopyUid : Type := Z * list (Z * Z).

(** [asyncenumerate(iterable, start)] of [pymap.backend.util], which is not
    part of the sources: the items numbered from [start], as [enumerate]
    numbers them. *)
Fixpoint asyncenumerate {A} (items : list A) (start : Z) : list (Z * A) :=
  match items with
  | [] => []
  | item :: rest => (start, item) :: asyncenumerate rest (start + 1)
  end.

(** An entry of the listing: its name, the delimiter, its attributes. *)
Definition ListEntry : Type := string * option string * list string.

(** ** A reference backend

    Modelled from the spec: sequence sets as lists of ranges over sequence
    numbers or over UIDs, [find] as the numbered messages that a set holds,
    appended messages as contents with flags, and a housekeeping pass with
    nothing to do. *)
Module Backend.

Record SequenceSet := mkSequenceSet {
  by_uid : bool;
  ranges : list (Z * option Z)
}.

Definition all_uid : SequenceSet := mkSequenceSet true [(1, None)].

Definition in_range (n : Z) (r : Z * option Z) : bool :=
  (r.1 <=? n)%Z && match r.2 with Some hi => (n <=? hi)%Z | None => true end.

Definition contains (s : SequenceSet) (n : Z) : bool :=
  existsb (in_range n) (ranges s).

Fixpoint numbered (seq : Z) (msgs : list KeyValMessage)
    : list (Z * KeyValMessage) :=
  match msgs with
  | [] => []
  | msg :: rest => (seq, msg) :: numbered (seq + 1) rest
  end.

Definition find_in (s : SequenceSet) (v : SelectedMailbox)
    (m : KeyValMailbox) : list (Z * KeyValMessage) :=
  List.filter
    (fun sm => contains s (if by_uid s then msg_uid sm.2 else sm.1))
    (numbered 1 (mbx_messages m)).

Record AppendMessage := mkAppendMessage {
  am_contents : string;
  am_flags : gset Flag
}.

Definition parse_message (a : AppendMessage) : KeyValMessage :=
  mkMessage 0 (am_flags a) false (am_contents a).

Definition cleanup (m : KeyValMailbox) : KeyValMailbox := m.

(** The names of the mailboxes of the store. *)
Definition list_mailboxes : M (list string) :=
  fun w => (Return (fst <$> map_to_list (mailboxes w)), w).

(** This backend keeps no subscriptions. *)
Definition list_subscribed : M (list string) := ret [].


(** A mailbox is added unless there is one of that name. *)
Definition add_mailbox (name : string) : M unit :=
  _ <- get_mailbox name true ;; ret tt.

Definition remove_mailbox (name : string) : M unit :=
  fun w => match mailboxes w !! name with
           | Some _ =>
               (Return tt,
                {| mailboxes := delete name (mailboxes w); views := views w;
                   next_uid_validity := next_uid_validity w |})
           | None => (Raise (MailboxNotFound name), w)
           end.

Definition rename_mailbox (before_name after_name : string) : M unit :=
  fun w => match mailboxes w !! before_name with
           | Some m =>
               (Return tt,
                {| mailboxes := <[after_name := m]>
                                  (delete before_name (mailboxes w));
                   views := views w;
                   next_uid_validity := next_uid_validity w |})
           | None => (Raise (MailboxNotFound before_name), w)
           end.

(** The listing matches a name when the filter is its prefix. *)
Definition list_matching (delimiter : string) (names : list string)
    (ref_name filter_ : string) : list (string * list string) :=
  (fun name => (name, [])) <$>
    List.filter (fun name => String.prefix (ref_name ++ filter_)%string name)
      names.

(** Search keys: the flags a message has to bear. *)
Definition SearchKeys : Type := list Flag.

Definition matches (keys : SearchKeys) (v : SelectedMailbox) (seq : Z)
    (msg : KeyValMessage) : bool :=
  forallb (fun flag => bool_decide (flag ∈ msg_permanent_flags msg)) keys.

End Backend.

(** ** Sample stores *)
Module Samples.

Definition message (uid : Z) (flags : gset Flag) (recent : bool)
    : KeyValMessage :=
  mkMessage uid flags recent "body".

Definition mailbox (uid_validity : Z) (readonly : bool)
    (msgs : list KeyValMessage) (next_uid : Z) (selected : list ref)
    : KeyValMailbox :=
  {| mbx_uid_validity := uid_validity; mbx_readonly := readonly;
     mbx_permanent_flags := default_permanent_flags;
     mbx_session_flags := default_session_flags;
     mbx_messages := msgs; mbx_next_uid := next_uid;
     selected_set := mkSelectedSet selected (mkEvent false None) |}.

Definition view (name : string) (readonly deleted : bool)
    (uid_validity : Z) : SelectedMailbox :=
  {| sel_name := name; sel_readonly := readonly;
     sel_uid_validity := Some uid_validity; sel_deleted := deleted;
     sel_messages := {[ 1 := ∅ ]};
     sel_session_flags := mkSessionFlags ∅ ∅ |}.

Definition inbox : KeyValMailbox :=
  mailbox 1 false [message 1 ∅ true; message 2 {[Deleted]} false] 3 [].

(** View 0 has mailbox A selected, and the store holds no A any more. *)
Definition orphaned : World :=
  {| mailboxes := {[ "INBOX" := inbox ]};
     views := {[ 0%nat := view "A" false false 1 ]};
     next_uid_validity := 3 |}.

(** View 0 was marked deleted, and a mailbox A exists again. *)
Definition recreated : World :=
  {| mailboxes := {[ "A" := mailbox 2 false [message 1 ∅ false] 2 [] ]};
     views := {[ 0%nat := view "A" false true 1 ]};
     next_uid_validity := 3 |}.

(** View 0 was marked deleted, and there still is no mailbox A. *)
Definition still_deleted : World :=
  {| mailboxes := {[ "INBOX" := inbox ]};
     views := {[ 0%nat := view "A" false true 1 ]};
     next_uid_validity := 3 |}.

(** View 0 has the inbox selected read-only. *)
Definition readonly_view : World :=
  {| mailboxes := {[ "INBOX" := mailbox 1 false
                                  [message 1 ∅ true; message 2 {[Deleted]} false]
                                  3 [0%nat] ]};
     views := {[ 0%nat := view "INBOX" true false 1 ]};
     next_uid_validity := 3 |}.


(** Nobody has the inbox selected. *)
Definition unselected : World :=
  {| mailboxes := {[ "INBOX" := inbox ]}; views := ∅;
     next_uid_validity := 3 |}.

(** View 0 has the inbox selected read-write. *)
Definition selected_inbox : World :=
  {| mailboxes := {[ "INBOX" := mailbox 1 false
                                  [message 1 ∅ false; message 2 {[Deleted]} false]
                                  3 [0%nat] ]};
     views := {[ 0%nat := view "INBOX" false false 1 ]};
     next_uid_validity := 3 |}.

(** The inbox is a read-only mailbox. *)
Definition readonly_inbox : World :=
  {| mailboxes := {[ "INBOX" := mailbox 1 true [message 1 ∅ true] 2 [] ]};
     views := ∅;
     next_uid_validity := 3 |}.

Definition first_message : Backend.SequenceSet :=
  Backend.mkSequenceSet false [(1, Some 1)].

Definition body : FetchAttribute := mkFetchAttribute "BODY[]" true.

Definition hello : Backend.AppendMessage := Backend.mkAppendMessage "hello" ∅.


Definition inbox_view : SelectedMailbox := view "INBOX" false false 1.

Definition inbox_selected : KeyValMailbox :=
  mailbox 1 false [message 1 ∅ false; message 2 {[Deleted]} false] 3 [0%nat].

Definition archive : KeyValMailbox := mailbox 5 false [] 1 [].

Definition locked : KeyValMailbox := mailbox 6 true [] 1 [].

(** View 0 has the inbox selected read-write; there are an empty mailbox
    Archive and a read-only mailbox Locked. *)
Definition with_archive : World :=
  {| mailboxes := {[ "INBOX" := inbox_selected; "Archive" := archive;
                     "Locked" := locked ]};
     views := {[ 0%nat := inbox_view ]};
     next_uid_validity := 7 |}.

(** View 0 has Archive selected, read-write. *)
Definition archive_view : SelectedMailbox := view "Archive" false false 5.

Definition archive_selected : World :=
  {| mailboxes := {[ "INBOX" := inbox; "Archive" := archive ]};
     views := {[ 0%nat := archive_view ]};
     next_uid_validity := 7 |}.

Definition deleted_messages : Backend.SearchKeys := [Deleted].

End Samples.

Section KeyValSession.

Set Default Proof Using "Type".

(** Parsing of sequence sets, of appended messages and the storage's
    housekeeping are the backend's: the session is written for any. *)
Variable SequenceSet : Type.
Variable SequenceSet_all_uid : SequenceSet.
Variable AppendMessage : Type.
Variable parse_message : AppendMessage -> KeyValMessage.
Variable cleanup : KeyValMailbox -> KeyValMailbox.

(** [mbx.find(sequence_set, selected)]: the (sequence number, message)
    pairs of the mailbox that the set matches within the view's bounds. *)
Variable find_in :
  SequenceSet -> SelectedMailbox -> KeyValMailbox -> list (Z * KeyValMessage).

(** [self.delimiter]. *)
Variable delimiter : string.

(** The store's own operations on the tree of mailboxes and on the
    subscriptions, [inbox.add_mailbox], [inbox.remove_mailbox],
    [inbox.rename_mailbox], [inbox.list_mailboxes], [inbox.list_subscribed]
    and [mbx.set_subscribed], are not part of the sources: the session is
    written for any. *)
Variable inbox_add_mailbox : string -> M unit.
Variable inbox_remove_mailbox : string -> M unit.
Variable inbox_rename_mailbox : string -> string -> M unit.
Variable inbox_list_mailboxes : M (list string).
Variable inbox_list_subscribed : M (list string).
Variable set_subscribed : string -> bool -> KeyValMailbox -> KeyValMailbox.

(** [ListTree(delimiter).update( *names ).list_matching(ref_name, filter_)]
    of [pymap.listtree]: the (name, attributes) of the entries of the tree
    of these names that the reference name and the filter match. *)
Variable list_matching :
  string -> list string -> string -> string -> list (string * list string).

(** [SearchCriteriaSet(keys, SearchParams(selected, ...)).matches(seq, msg)]
    of [pymap.search]: the parameters are those of the view. *)
Variable SearchKeys : Type.
Variable matches : SearchKeys -> SelectedMailbox -> Z -> KeyValMessage -> bool.

Definition find (mbx : handle) (sequence_set : SequenceSet) (selected : ref)
    : M (list (Z * KeyValMessage)) :=
  m <- get_mbx mbx ;;
  v <- get_view selected ;;
  ret (find_in sequence_set v m).

(** The loop of [_load_updates] over [mbx.items()]. *)
Fixpoint load_items (selected : ref) (its : list (Z * KeyValMessage))
    : M unit :=
  match its with
  | [] => ret tt
  | (uid, msg) :: rest =>
      update_view selected (add_messages (uid, msg_permanent_flags msg)) ;;;
      load_items selected rest
  end.

Definition _load_updates (selected : option ref) (mbx : option handle)
    : M (option ref) :=
  match selected with
  | Some sel =>
      v <- get_view sel ;;
      resolved <-
        (if bool_decide (mbx = None ∨ Some (sel_name v) ≠ mbx) then
           except_not_found
             (h <- get_mailbox (sel_name v) false ;; ret (Some h))
             (update_view sel set_deleted ;;; ret None)
         else ret mbx) ;;
      match resolved with
      | None => ret selected
      | Some h =>
          m <- get_mbx h ;;
          update_view sel (set_uid_validity (mbx_uid_validity m)) ;;;
          its <- items h ;;
          load_items sel its ;;;
          ret selected
      end
  | None => ret selected
  end.

Definition _find_selected (selected : option ref) (mbx : handle)
    : M (option ref) :=
  match selected with
  | Some sel =>
      v <- get_view sel ;;
      if bool_decide (sel_name v = mbx) then ret selected
      else m <- get_mbx mbx ;; ret (any_selected (selected_set m))
  | None => m <- get_mbx mbx ;; ret (any_selected (selected_set m))
  end.

Definition mark_recent (dest_selected : option ref) (u : Z) : M unit :=
  match dest_selected with
  | Some d => update_view d (with_session_flags (add_recent u))
  | None => ret tt
  end.

Fixpoint append_loop (mbx : handle) (dest_selected : option ref)
    (msgs : list AppendMessage) (uids : list Z) : M (list Z) :=
  match msgs with
  | [] => ret uids
  | append_msg :: rest =>
      let msg := parse_message append_msg in
      msg <- add mbx msg (negb (bool_decide (is_Some dest_selected))) ;;
      mark_recent dest_selected (msg_uid msg) ;;;
      append_loop mbx dest_selected rest (uids ++ [msg_uid msg])
  end.

Definition append_messages (name : string) (msgs : list AppendMessage)
    (selected : option ref) : M (AppendUid * option ref) :=
  mbx <- get_mailbox name true ;;
  m <- get_mbx mbx ;;
  if mbx_readonly m then raise (MailboxReadOnly name) else
  dest_selected <- _find_selected selected mbx ;;
  uids <- append_loop mbx dest_selected msgs [] ;;
  set_updated mbx ;;;
  m <- get_mbx mbx ;;
  sel <- _load_updates selected (Some mbx) ;;
  ret ((mbx_uid_validity m, uids), sel).

(** The loop of [select_mailbox] over [mbx.messages()]. *)
Fixpoint claim_recent (selected : ref) (msgs : list KeyValMessage)
    (recent_msgs : list KeyValMessage) : M (list KeyValMessage) :=
  match msgs with
  | [] => ret recent_msgs
  | msg :: rest =>
      if msg_recent msg then
        let msg := set_msg_recent false msg in
        update_view selected (with_session_flags (add_recent (msg_uid msg))) ;;;
        claim_recent selected rest (recent_msgs ++ [msg])
      else claim_recent selected rest recent_msgs
  end.

Definition select_mailbox (name : string) (readonly : bool)
    : M (MailboxSnapshot * option ref) :=
  mbx <- get_mailbox name false ;;
  m <- get_mbx mbx ;;
  selected <- SelectedMailbox_new name (readonly || mbx_readonly m) mbx ;;
  v <- get_view selected ;;
  (if negb (sel_readonly v) then
     msgs <- messages mbx ;;
     recent_msgs <- claim_recent selected msgs [] ;;
     save_flags mbx (PyMsg <$> recent_msgs)
   else ret tt) ;;;
  snap <- snapshot mbx ;;
  sel <- _load_updates (Some selected) (Some mbx) ;;
  ret (snap, sel).

Definition check_mailbox (selected : ref) (wait_on : option Event)
    (housekeeping : bool) : M (option ref) :=
  v <- get_view selected ;;
  mbx <- get_mailbox (sel_name v) false ;;
  (if housekeeping then update_mbx mbx cleanup else ret tt) ;;;
  (match wait_on with
   | Some ev =>
       m <- get_mbx mbx ;;
       match fst (_wait_for_updates m ev) with
       | Return _ => ret tt
       | Raise e => raise e
       end
   | None => ret tt
   end) ;;;
  _load_updates (Some selected) (Some mbx).

Definition add_seen (sm : Z * KeyValMessage) : Z * KeyValMessage :=
  (sm.1, set_msg_flags ({[Seen]} ∪ msg_permanent_flags sm.2) sm.2).

(** The argument list of the [save_flags] call of [fetch_messages]: the
    generator expression [(msg for _, msg in ret)], as one argument. *)
Definition fetch_save_args (found : list (Z * KeyValMessage)) : list pyobj :=
  [PyGen (snd <$> found)].

Definition fetch_messages (selected : ref) (sequence_set : SequenceSet)
    (attributes : list FetchAttribute)
    : M (list (Z * KeyValMessage) * option ref) :=
  v <- get_view selected ;;
  mbx <- get_mailbox (sel_name v) false ;;
  found <- find mbx sequence_set selected ;;
  found <-
    (if negb (sel_readonly v) && existsb set_seen attributes then
       let found := add_seen <$> found in
       save_flags mbx (fetch_save_args found) ;;;
       ret found
     else ret found) ;;
  sel <- _load_updates (Some selected) (Some mbx) ;;
  ret (found, sel).

Fixpoint delete_all (mbx : handle) (uids : list Z) : M unit :=
  match uids with
  | [] => ret tt
  | uid :: rest => delete_msg mbx uid ;;; delete_all mbx rest
  end.

Definition expunge_mailbox (selected : ref) (uid_set : option SequenceSet)
    : M (option ref) :=
  v <- get_view selected ;;
  if sel_readonly v then raise (MailboxReadOnly (sel_name v)) else
  mbx <- get_mailbox (sel_name v) false ;;
  let uid_set := default SequenceSet_all_uid uid_set in
  found <- find mbx uid_set selected ;;
  let expunge_uids :=
    msg_uid <$> filter (fun msg => Deleted ∈ msg_permanent_flags msg)
                  (snd <$> found) in
  delete_all mbx expunge_uids ;;;
  set_updated mbx ;;;
  _load_updates (Some selected) (Some mbx).

Fixpoint copy_loop (dest : handle) (dest_selected : option ref)
    (found : list (Z * KeyValMessage)) (uids : list (Z * Z))
    : M (list (Z * Z)) :=
  match found with
  | [] => ret uids
  | (_, msg) :: rest =>
      let source_uid := msg_uid msg in
      msg <- add dest msg (negb (bool_decide (is_Some dest_selected))) ;;
      mark_recent dest_selected (msg_uid msg) ;;;
      copy_loop dest dest_selected rest (uids ++ [(source_uid, msg_uid msg)])
  end.

(** The matches of [mbx.find] are those of the mailbox as the loop finds
    it: they lie within the view's bounds, which the loop leaves alone. *)
Definition copy_messages (selected : ref) (sequence_set : SequenceSet)
    (mailbox : string) : M (CopyUid * option ref) :=
  v <- get_view selected ;;
  mbx <- get_mailbox (sel_name v) false ;;
  dest <- get_mailbox mailbox true ;;
  d <- get_mbx dest ;;
  if mbx_readonly d then raise (MailboxReadOnly mailbox) else
  dest_selected <- _find_selected (Some selected) dest ;;
  found <- find mbx sequence_set selected ;;
  uids <- copy_loop dest dest_selected found [] ;;
  set_updated dest ;;;
  d <- get_mbx dest ;;
  sel <- _load_updates (Some selected) (Some mbx) ;;
  ret ((mbx_uid_validity d, uids), sel).

Fixpoint update_loop (selected : ref) (permanent_flags session_flags : gset Flag)
    (mode : FlagOp) (found : list (Z * KeyValMessage))
    (msgs : list KeyValMessage) : M (list KeyValMessage) :=
  match found with
  | [] => ret msgs
  | (_, msg) :: rest =>
      let msg := msg_update_flags permanent_flags mode msg in
      update_view selected
        (with_session_flags
           (session_flags_update (msg_uid msg) session_flags mode)) ;;;
      update_loop selected permanent_flags session_flags mode rest
        (msgs ++ [msg])
  end.

Definition update_flags (selected : ref) (sequence_set : SequenceSet)
    (flag_set : gset Flag) (mode : FlagOp) : M (list Z * option ref) :=
  v <- get_view selected ;;
  if sel_readonly v then raise (MailboxReadOnly (sel_name v)) else
  mbx <- get_mailbox (sel_name v) false ;;
  m <- get_mbx mbx ;;
  let permanent_flags := flag_set ∩ mbx_permanent_flags m in
  let session_flags := flag_set ∩ mbx_session_flags m in
  found <- find mbx sequence_set selected ;;
  msgs <- update_loop selected permanent_flags session_flags mode found [] ;;
  save_flags mbx (PyMsg <$> msgs) ;;;
  let uids := msg_uid <$> msgs in
  set_updated mbx ;;;
  sel <- _load_updates (Some selected) (Some mbx) ;;
  ret (uids, sel).

(** ** The other operations of the session *)

Definition list_mailboxes (ref_name filter_ : string) (subscribed : bool)
    (selected : option ref) : M (list ListEntry * option ref) :=
  listed <-
    (if bool_decide (filter_ <> "") then
       names <- (if subscribed then inbox_list_subscribed
                 else inbox_list_mailboxes) ;;
       ret ((fun entry => (entry.1, Some delimiter, entry.2)) <$>
              list_matching delimiter ("INBOX" :: names) ref_name filter_)
     else ret [("", Some delimiter, ["Noselect"])]) ;;
  sel <- _load_updates selected None ;;
  ret (listed, sel).

(** [KeyValSession.get_mailbox]. *)
Definition session_get_mailbox (name : string) (selected : option ref)
    : M (MailboxSnapshot * option ref) :=
  mbx <- get_mailbox name false ;;
  snap <- snapshot mbx ;;
  sel <- _load_updates selected (Some mbx) ;;
  ret (snap, sel).

Definition create_mailbox (name : string) (selected : option ref)
    : M (option ref) :=
  inbox_add_mailbox name ;;;
  _load_updates selected None.

Definition delete_mailbox (name : string) (selected : option ref)
    : M (option ref) :=
  inbox_remove_mailbox name ;;;
  _load_updates selected None.

Definition rename_mailbox (before_name after_name : string)
    (selected : option ref) : M (option ref) :=
  inbox_rename_mailbox before_name after_name ;;;
  _load_updates selected None.



Definition search_mailbox (selected : ref) (keys : SearchKeys)
    : M (list (Z * KeyValMessage) * option ref) :=
  v <- get_view selected ;;
  mbx <- get_mailbox (sel_name v) false ;;
  msgs <- messages mbx ;;
  let found :=
    List.filter (fun sm => matches keys v sm.1 sm.2) (asyncenumerate msgs 1) in
  sel <- _load_updates (Some selected) (Some mbx) ;;
  ret (found, sel).

(** ** What the loops compute *)

(** The view after [_load_updates] has fed it the given items. *)
Definition feed (v : SelectedMailbox) (its : list (Z * KeyValMessage))
    : SelectedMailbox :=
  foldl (fun v it => add_messages (it.1, msg_permanent_flags it.2) v) v its.

(** The view after a synchronisation against mailbox [m]. *)
Definition synced (v : SelectedMailbox) (m : KeyValMailbox) : SelectedMailbox :=
  feed (set_uid_validity (mbx_uid_validity m) v)
    ((fun msg => (msg_uid msg, msg)) <$> mbx_messages m).

(** The copies that the loop of [select_mailbox] hands to [save_flags]. *)
Definition claimed (msgs : list KeyValMessage) : list KeyValMessage :=
  set_msg_recent false <$> filter (fun msg => msg_recent msg = true) msgs.

(** The view after that loop. *)
Definition claim_view (v : SelectedMailbox) (msgs : list KeyValMessage)
    : SelectedMailbox :=
  foldl (fun v msg =>
           if msg_recent msg
           then with_session_flags (add_recent (msg_uid msg)) v else v)
    v msgs.

(** The stored messages after [save_flags] of a batch of messages. *)
Definition saved (stored batch : list KeyValMessage) : list KeyValMessage :=
  foldl (fun st msg => store_flags msg <$> st) stored batch.

(** The UIDs of the messages that are marked recent. *)
Definition recent_uids (msgs : list KeyValMessage) : gset Z :=
  list_to_set (msg_uid <$> filter (fun msg => msg_recent msg = true) msgs).

(** The messages as [mbx.add] stores them one after the other, from the
    given UID on. *)
Fixpoint stamped (uid : Z) (recent : bool) (msgs : list KeyValMessage)
    : list KeyValMessage :=
  match msgs with
  | [] => []
  | msg :: rest => stamp uid recent msg :: stamped (uid + 1) recent rest
  end.

(** The mailbox after these additions. *)
Definition add_all (recent : bool) (m : KeyValMailbox)
    (msgs : list KeyValMessage) : KeyValMailbox :=
  {| mbx_uid_validity := mbx_uid_validity m; mbx_readonly := mbx_readonly m;
     mbx_permanent_flags := mbx_permanent_flags m;
     mbx_session_flags := mbx_session_flags m;
     mbx_messages := mbx_messages m ++ stamped (mbx_next_uid m) recent msgs;
     mbx_next_uid := mbx_next_uid m + Z.of_nat (length msgs);
     selected_set := selected_set m |}.

(** The view after the given UIDs were marked recent in its session. *)
Definition mark_all (uids : list Z) (v : SelectedMailbox) : SelectedMailbox :=
  foldl (fun v u => with_session_flags (add_recent u) v) v uids.

(** The store after the loop of Append or Copy marked the UIDs. *)
Definition marked (dest_selected : option ref) (uids : list Z) (w : World)
    : World :=
  match dest_selected with
  | Some d => match views w !! d with
              | Some vd => set_view d (mark_all uids vd) w
              | None => w
              end
  | None => w
  end.

(** The session's recent UIDs of a view of the store. *)
Definition session_recent (w : World) (r : ref) : option (gset Z) :=
  (fun v => sf_recent (sel_session_flags v)) <$> views w !! r.

(** The flags that [_load_updates] leaves in the view for a UID: those of
    the last of the items that bears it. *)
Fixpoint last_flags (its : list (Z * KeyValMessage)) (u : Z)
    : option (gset Flag) :=
  match its with
  | [] => None
  | (uid, msg) :: rest =>
      match last_flags rest u with
      | Some flags => Some flags
      | None => if decide (uid = u) then Some (msg_permanent_flags msg)
                else None
      end
  end.


(** ** Sets of UIDs *)

Lemma union_empty_left (s : gset Z) : s = ∅ ∪ s.
Proof. now rewrite union_empty_l_L. Qed.

Lemma union_singleton_shift (u : Z) (a s : gset Z) :
  a ∪ ({[u]} ∪ s) = ({[u]} ∪ a) ∪ s.
Proof. now rewrite (assoc_L (∪)), (comm_L (∪) a). Qed.

Lemma not_elem_of_uids_cons (u v : Z) (us : list Z) :
  u <> v -> u ∉ us -> u ∉ v :: us.
Proof. intros Hne Hn Hin. apply elem_of_cons in Hin as [?|?]; auto. Qed.

(** ** Running the primitives *)

Lemma bind_return {A B} (m : M A) (k : A -> M B) w a w' :
  m w = (Return a, w') -> bind m k w = k a w'.
Proof. intros H. unfold bind. now rewrite H. Qed.

Lemma bind_raise {A B} (m : M A) (k : A -> M B) w e w' :
  m w = (Raise e, w') -> bind m k w = (Raise e, w').
Proof. intros H. unfold bind. now rewrite H. Qed.

Lemma set_view_id r v w : views w !! r = Some v -> set_view r v w = w.
Proof.
  intros H. destruct w as [ms vs n]. unfold set_view. simpl in *.
  f_equal. now apply insert_id.
Qed.

Lemma set_mbx_id h m w : mailboxes w !! h = Some m -> set_mbx h m w = w.
Proof.
  intros H. destruct w as [ms vs n]. unfold set_mbx. simpl in *.
  f_equal. now apply insert_id.
Qed.

Lemma set_view_twice r v1 v2 w :
  set_view r v2 (set_view r v1 w) = set_view r v2 w.
Proof. unfold set_view. simpl. f_equal. apply insert_insert_eq. Qed.

Lemma set_mbx_twice h m1 m2 w :
  set_mbx h m2 (set_mbx h m1 w) = set_mbx h m2 w.
Proof. unfold set_mbx. simpl. f_equal. apply insert_insert_eq. Qed.

Lemma views_set_view r v w : views (set_view r v w) !! r = Some v.
Proof. simpl. apply lookup_insert_eq. Qed.

Lemma mailboxes_set_mbx h m w : mailboxes (set_mbx h m w) !! h = Some m.
Proof. simpl. apply lookup_insert_eq. Qed.

Lemma get_view_run r v w : views w !! r = Some v -> get_view r w = (Return v, w).
Proof. intros H. unfold get_view. now rewrite H. Qed.

Lemma get_mbx_run h m w :
  mailboxes w !! h = Some m -> get_mbx h w = (Return m, w).
Proof. intros H. unfold get_mbx. now rewrite H. Qed.

Lemma update_view_run r f v w :
  views w !! r = Some v -> update_view r f w = (Return tt, set_view r (f v) w).
Proof.
  intros H. unfold update_view.
  now rewrite (bind_return _ _ _ _ _ (get_view_run _ _ _ H)).
Qed.

Lemma update_mbx_run h f m w :
  mailboxes w !! h = Some m ->
  update_mbx h f w = (Return tt, set_mbx h (f m) w).
Proof.
  intros H. unfold update_mbx.
  now rewrite (bind_return _ _ _ _ _ (get_mbx_run _ _ _ H)).
Qed.

Lemma get_mailbox_found name try_create m w :
  mailboxes w !! name = Some m ->
  get_mailbox name try_create w = (Return name, w).
Proof. intros H. unfold get_mailbox. now rewrite H. Qed.

Lemma get_mailbox_missing name w :
  mailboxes w !! name = None ->
  get_mailbox name false w = (Raise (MailboxNotFound name), w).
Proof. intros H. unfold get_mailbox. now rewrite H. Qed.

(** ** The synchronisation, run *)

Lemma feed_fields v its :
  sel_name (feed v its) = sel_name v
  /\ sel_readonly (feed v its) = sel_readonly v
  /\ sel_uid_validity (feed v its) = sel_uid_validity v
  /\ sel_deleted (feed v its) = sel_deleted v
  /\ sel_session_flags (feed v its) = sel_session_flags v.
Proof.
  revert v. induction its as [|it its IH]; intros v; simpl; [easy|].
  destruct (IH (add_messages (it.1, msg_permanent_flags it.2) v))
    as (H1&H2&H3&H4&H5).
  rewrite H1, H2, H3, H4, H5. easy.
Qed.

Lemma load_items_run sel its : forall v w,
  views w !! sel = Some v ->
  load_items sel its w = (Return tt, set_view sel (feed v its) w).
Proof.
  induction its as [|[uid msg] its IH]; intros v w Hv; simpl.
  - unfold ret. now rewrite set_view_id.
  - rewrite (bind_return _ _ _ _ _ (update_view_run _ _ _ _ Hv)).
    rewrite (IH _ _ (views_set_view _ _ _)).
    now rewrite set_view_twice.
Qed.

(** [_load_updates] with the handle of the view's own mailbox. *)
Lemma load_updates_same sel v m w :
  views w !! sel = Some v ->
  mailboxes w !! sel_name v = Some m ->
  _load_updates (Some sel) (Some (sel_name v)) w
  = (Return (Some sel), set_view sel (synced v m) w).
Proof.
  intros Hv Hm. unfold _load_updates.
  rewrite (bind_return _ _ _ _ _ (get_view_run _ _ _ Hv)).
  rewrite bool_decide_eq_false_2 by (intros [?|?]; congruence).
  unfold bind at 1. unfold ret at 1.
  rewrite (bind_return _ _ _ _ _ (get_mbx_run _ _ _ Hm)).
  rewrite (bind_return _ _ _ _ _ (update_view_run _ _ _ _ Hv)).
  unfold items.
  assert (Hm' : mailboxes (set_view sel (set_uid_validity (mbx_uid_validity m) v) w)
                  !! sel_name v = Some m) by exact Hm.
  rewrite (bind_return _ _ _ _ _
             (bind_return _ _ _ _ _ (get_mbx_run _ _ _ Hm'))).
  rewrite (bind_return _ _ _ _ _
             (load_items_run _ _ _ _ (views_set_view _ _ _))).
  unfold ret, synced. now rewrite set_view_twice.
Qed.

(** [_load_updates] when the mailbox has to be resolved again. *)
Lemma load_updates_resolve sel v mbx w :
  views w !! sel = Some v ->
  mbx = None \/ mbx <> Some (sel_name v) ->
  _load_updates (Some sel) mbx w
  = match mailboxes w !! sel_name v with
    | Some m => (Return (Some sel), set_view sel (synced v m) w)
    | None => (Return (Some sel), set_view sel (set_deleted v) w)
    end.
Proof.
  intros Hv Hmbx.
  destruct (mailboxes w !! sel_name v) as [m|] eqn:Hm.
  - rewrite <- (load_updates_same _ _ _ _ Hv Hm).
    unfold _load_updates.
    rewrite !(bind_return _ _ _ _ _ (get_view_run _ _ _ Hv)).
    rewrite bool_decide_eq_true_2 by (destruct Hmbx; [left|right]; congruence).
    rewrite (bool_decide_eq_false_2 (Some (sel_name v) = None \/ _))
      by (intros [?|?]; congruence).
    unfold except_not_found, bind at 1.
    unfold bind at 1. rewrite (get_mailbox_found _ _ _ _ Hm).
    reflexivity.
  - unfold _load_updates.
    rewrite (bind_return _ _ _ _ _ (get_view_run _ _ _ Hv)).
    rewrite bool_decide_eq_true_2 by (destruct Hmbx; [left|right]; congruence).
    unfold except_not_found, bind at 1.
    unfold bind at 1. rewrite (get_mailbox_missing _ _ Hm). simpl.
    now rewrite (bind_return _ _ _ _ _ (update_view_run _ _ _ _ Hv)).
Qed.


Lemma synced_fields v m :
  sel_name (synced v m) = sel_name v
  /\ sel_readonly (synced v m) = sel_readonly v
  /\ sel_deleted (synced v m) = sel_deleted v
  /\ sel_session_flags (synced v m) = sel_session_flags v.
Proof.
  unfold synced.
  destruct (feed_fields (set_uid_validity (mbx_uid_validity m) v)
              ((fun msg => (msg_uid msg, msg)) <$> mbx_messages m))
    as (H1&H2&_&H4&H5).
  rewrite H1, H2, H4, H5. easy.
Qed.

(** A synchronisation of a live view against live handles returns the
    view, and changes nothing but that view's validity and membership. *)
Lemma load_updates_total sel v mbx w :
  views w !! sel = Some v ->
  (forall h, mbx = Some h -> is_Some (mailboxes w !! h)) ->
  exists v',
    _load_updates (Some sel) mbx w = (Return (Some sel), set_view sel v' w)
    /\ sel_name v' = sel_name v
    /\ sel_readonly v' = sel_readonly v
    /\ sel_session_flags v' = sel_session_flags v
    /\ (sel_deleted v = true -> sel_deleted v' = true).
Proof.
  intros Hv Hlive.
  destruct (decide (mbx = Some (sel_name v))) as [->|Hne].
  - destruct (Hlive _ eq_refl) as [m Hm].
    exists (synced v m). rewrite (load_updates_same _ _ _ _ Hv Hm).
    destruct (synced_fields v m) as (H1&H2&H3&H4).
    rewrite H1, H2, H3, H4. easy.
  - rewrite (load_updates_resolve sel v mbx w Hv)
      by (destruct mbx; [right|left]; congruence).
    destruct (mailboxes w !! sel_name v) as [m|].
    + exists (synced v m).
      destruct (synced_fields v m) as (H1&H2&H3&H4).
      rewrite H1, H2, H3, H4. easy.
    + exists (set_deleted v). easy.
Qed.

Lemma set_deleted_id v : sel_deleted v = true -> set_deleted v = v.
Proof. destruct v; simpl; intros ->; reflexivity. Qed.

(** ** View synchronisation *)

(** C1: [_load_updates] on an absent view returns absent and leaves the
    store as it is.  On a view, when the handle is absent or names another
    mailbox, the mailbox is resolved again by the view's name: the call
    then is the call with that handle, and when there is no such mailbox
    the view is marked deleted and returned, its uidValidity, membership
    and session flags, every other view and every mailbox left as they
    were. *)
Theorem load_updates_absent_or_not_found :
  (forall mbx w, _load_updates None mbx w = (Return None, w))
  /\ (forall sel v mbx w,
        views w !! sel = Some v ->
        mbx = None \/ mbx <> Some (sel_name v) ->
        (forall m, mailboxes w !! sel_name v = Some m ->
           _load_updates (Some sel) mbx w
           = _load_updates (Some sel) (Some (sel_name v)) w)
        /\ (mailboxes w !! sel_name v = None ->
            _load_updates (Some sel) mbx w
            = (Return (Some sel), set_view sel (set_deleted v) w)
            /\ sel_deleted (set_deleted v) = true
            /\ sel_uid_validity (set_deleted v) = sel_uid_validity v
            /\ sel_messages (set_deleted v) = sel_messages v
            /\ sel_session_flags (set_deleted v) = sel_session_flags v
            /\ mailboxes (set_view sel (set_deleted v) w) = mailboxes w
            /\ (forall r, r <> sel ->
                  views (set_view sel (set_deleted v) w) !! r = views w !! r))).
Proof.
  split; [reflexivity|].
  intros sel v mbx w Hv Hmbx. split.
  - intros m Hm.
    rewrite (load_updates_resolve _ _ _ _ Hv Hmbx), Hm.
    now rewrite (load_updates_same _ _ _ _ Hv Hm).
  - intros Hm. rewrite (load_updates_resolve _ _ _ _ Hv Hmbx), Hm.
    repeat split; try reflexivity.
    intros r Hr. simpl. now rewrite lookup_insert_ne.
Qed.

(** C5, as the code has it: the deleted marker is never cleared, and a
    synchronisation of a deleted view changes nothing as long as the
    view's name does not resolve (the handle being absent or that of
    another mailbox).  Once a mailbox of that name exists again the call
    synchronises the view against it, deleted as it stays. *)
Theorem deleted_marker_sticky sel v mbx w :
  views w !! sel = Some v ->
  sel_deleted v = true ->
  (forall o w', _load_updates (Some sel) mbx w = (o, w') ->
     exists v', views w' !! sel = Some v' /\ sel_deleted v' = true)
  /\ (mbx = None \/ mbx <> Some (sel_name v) ->
      mailboxes w !! sel_name v = None ->
      _load_updates (Some sel) mbx w = (Return (Some sel), w))
  /\ (forall m, mailboxes w !! sel_name v = Some m ->
      _load_updates (Some sel) mbx w
      = (Return (Some sel), set_view sel (synced v m) w)).
Proof.
  intros Hv Hdel. split; [|split].
  - intros o w' Hrun.
    destruct (decide (mbx = Some (sel_name v))) as [->|Hne].
    + destruct (mailboxes w !! sel_name v) as [m|] eqn:Hm.
      * rewrite (load_updates_same _ _ _ _ Hv Hm) in Hrun.
        injection Hrun as _ <-. exists (synced v m).
        split; [apply views_set_view|].
        destruct (synced_fields v m) as (_&_&H3&_). congruence.
      * unfold _load_updates in Hrun.
        rewrite (bind_return _ _ _ _ _ (get_view_run _ _ _ Hv)) in Hrun.
        rewrite bool_decide_eq_false_2 in Hrun
          by (intros [?|?]; congruence).
        unfold bind at 1 in Hrun. unfold ret at 1 in Hrun.
        unfold bind at 1, get_mbx in Hrun. rewrite Hm in Hrun.
        injection Hrun as _ <-. eauto.
    + rewrite (load_updates_resolve sel v mbx w Hv) in Hrun
        by (destruct mbx; [right|left]; congruence).
      destruct (mailboxes w !! sel_name v) as [m|];
        injection Hrun as _ <-.
      * exists (synced v m). split; [apply views_set_view|].
        destruct (synced_fields v m) as (_&_&H3&_). congruence.
      * exists (set_deleted v). split; [apply views_set_view|easy].
  - intros Hmbx Hm.
    rewrite (load_updates_resolve _ _ _ _ Hv Hmbx), Hm.
    now rewrite (set_deleted_id _ Hdel), (set_view_id _ _ _ Hv).
  - intros m Hm.
    destruct (decide (mbx = Some (sel_name v))) as [->|Hne].
    + apply (load_updates_same _ _ _ _ Hv Hm).
    + rewrite (load_updates_resolve sel v mbx w Hv)
        by (destruct mbx; [right|left]; congruence).
      now rewrite Hm.
Qed.


(** ** Read-only views *)

Lemma expunge_readonly selected v uid_set w :
  views w !! selected = Some v ->
  sel_readonly v = true ->
  expunge_mailbox selected uid_set w = (Raise (MailboxReadOnly (sel_name v)), w).
Proof.
  intros Hv Hro. unfold expunge_mailbox.
  rewrite (bind_return _ _ _ _ _ (get_view_run _ _ _ Hv)).
  now rewrite Hro.
Qed.

Lemma update_flags_readonly selected v sequence_set flag_set mode w :
  views w !! selected = Some v ->
  sel_readonly v = true ->
  update_flags selected sequence_set flag_set mode w
  = (Raise (MailboxReadOnly (sel_name v)), w).
Proof.
  intros Hv Hro. unfold update_flags.
  rewrite (bind_return _ _ _ _ _ (get_view_run _ _ _ Hv)).
  now rewrite Hro.
Qed.

(** C4: through a read-only view Expunge and Update-Flags raise
    [MailboxReadOnly] and leave the whole store as it was: messages, flags,
    views and change signals. *)
Theorem readonly_view_rejects selected v uid_set sequence_set flag_set mode w :
  views w !! selected = Some v ->
  sel_readonly v = true ->
  expunge_mailbox selected uid_set w = (Raise (MailboxReadOnly (sel_name v)), w)
  /\ update_flags selected sequence_set flag_set mode w
     = (Raise (MailboxReadOnly (sel_name v)), w).
Proof.
  intros Hv Hro. split.
  - now apply expunge_readonly.
  - now apply update_flags_readonly.
Qed.

(** ** Views of a mailbox that is gone *)

(** C6, as the code has it: Check and Fetch resolve the mailbox by the
    view's name before anything else; when it no longer exists the
    [MailboxNotFound] of that resolution reaches the caller, and the view
    is not marked deleted: the store is left as it was. *)
Theorem check_fetch_not_found selected v wait_on housekeeping
    sequence_set attributes w :
  views w !! selected = Some v ->
  mailboxes w !! sel_name v = None ->
  check_mailbox selected wait_on housekeeping w
  = (Raise (MailboxNotFound (sel_name v)), w)
  /\ fetch_messages selected sequence_set attributes w
     = (Raise (MailboxNotFound (sel_name v)), w).
Proof.
  intros Hv Hm. split.
  - unfold check_mailbox.
    rewrite (bind_return _ _ _ _ _ (get_view_run _ _ _ Hv)).
    now rewrite (bind_raise _ _ _ _ _ (get_mailbox_missing _ _ Hm)).
  - unfold fetch_messages.
    rewrite (bind_return _ _ _ _ _ (get_view_run _ _ _ Hv)).
    now rewrite (bind_raise _ _ _ _ _ (get_mailbox_missing _ _ Hm)).
Qed.


(** ** Selecting *)

Lemma with_messages_same m : with_messages (fun st => st) m = m.
Proof. now destruct m. Qed.

Lemma set_view_over r v1 v2 h m w :
  set_view r v2 (set_mbx h m (set_view r v1 w)) = set_view r v2 (set_mbx h m w).
Proof. unfold set_view, set_mbx. simpl. f_equal. apply insert_insert_eq. Qed.

Lemma claim_recent_run sel msgs : forall acc v w,
  views w !! sel = Some v ->
  claim_recent sel msgs acc w
  = (Return (acc ++ claimed msgs), set_view sel (claim_view v msgs) w).
Proof.
  induction msgs as [|msg msgs IH]; intros acc v w Hv; simpl.
  - unfold ret, claimed. simpl. now rewrite app_nil_r, set_view_id.
  - unfold claimed. rewrite filter_cons.
    destruct (msg_recent msg) eqn:Hr.
    + rewrite decide_True by reflexivity.
      rewrite (bind_return _ _ _ _ _ (update_view_run _ _ _ _ Hv)).
      rewrite (IH _ _ _ (views_set_view _ _ _)).
      rewrite set_view_twice, fmap_cons, <- app_assoc. reflexivity.
    + rewrite decide_False by discriminate.
      apply (IH _ _ _ Hv).
Qed.

Lemma save_flags_run h batch : forall m w,
  mailboxes w !! h = Some m ->
  save_flags h (PyMsg <$> batch) w
  = (Return tt,
     set_mbx h (with_messages (fun st => saved st batch) m) w).
Proof.
  induction batch as [|msg batch IH]; intros m w Hm; simpl.
  - unfold ret. now rewrite with_messages_same, set_mbx_id.
  - rewrite (bind_return _ _ _ _ _ (update_mbx_run _ _ _ _ Hm)).
    rewrite (IH _ _ (mailboxes_set_mbx _ _ _)).
    now rewrite set_mbx_twice.
Qed.

Lemma claim_view_fields v msgs :
  sel_name (claim_view v msgs) = sel_name v
  /\ sel_readonly (claim_view v msgs) = sel_readonly v
  /\ sf_recent (sel_session_flags (claim_view v msgs))
     = recent_uids msgs ∪ sf_recent (sel_session_flags v).
Proof.
  revert v. unfold recent_uids.
  induction msgs as [|msg msgs IH]; intros v; simpl.
  - repeat split. apply union_empty_left.
  - rewrite filter_cons. destruct (msg_recent msg) eqn:Hr.
    + rewrite decide_True by reflexivity.
      destruct (IH (with_session_flags (add_recent (msg_uid msg)) v))
        as (H1&H2&H3).
      rewrite H1, H2, H3. simpl. repeat split. apply union_singleton_shift.
    + rewrite decide_False by discriminate. apply IH.
Qed.

Lemma saved_uids batch : forall st,
  msg_uid <$> saved st batch = msg_uid <$> st.
Proof.
  induction batch as [|msg batch IH]; intros st; simpl; [reflexivity|].
  rewrite IH, <- list_fmap_compose. apply list_fmap_ext.
  intros _ s _. simpl. unfold store_flags. now case_decide.
Qed.

(** A stored message that is still recent after a batch of cleared
    messages was saved is one that the batch does not name. *)
Lemma saved_recent batch : forall st s',
  (forall x, x ∈ batch -> msg_recent x = false) ->
  s' ∈ saved st batch ->
  msg_recent s' = true ->
  exists s, s ∈ st /\ msg_recent s = true
            /\ msg_uid s ∉ (msg_uid <$> batch).
Proof.
  induction batch as [|x batch IH]; intros st s' Hb Hin Hr; simpl in *.
  - exists s'. repeat split; auto. apply not_elem_of_nil.
  - destruct (IH (store_flags x <$> st) s') as (s1 & Hs1 & Hr1 & Hn1); auto.
    { intros y Hy. apply Hb. now right. }
    apply list_elem_of_fmap in Hs1 as (s & -> & Hs).
    unfold store_flags in Hr1, Hn1. case_decide as Hu.
    + simpl in Hr1. rewrite (Hb x) in Hr1 by now left. discriminate.
    + exists s. repeat split; auto. now apply not_elem_of_uids_cons.
Qed.

Lemma saved_claimed_clear st s :
  s ∈ saved st (claimed st) -> msg_recent s = false.
Proof.
  intros Hin. destruct (msg_recent s) eqn:Hr; [|reflexivity].
  destruct (saved_recent (claimed st) st s) as (s0 & Hs0 & Hr0 & Hn0); auto.
  - intros x Hx. unfold claimed in Hx.
    apply list_elem_of_fmap in Hx as (y & -> & _). reflexivity.
  - exfalso. apply Hn0. unfold claimed.
    rewrite <- list_fmap_compose. apply list_elem_of_fmap.
    exists s0. split; [reflexivity|].
    apply list_elem_of_filter. now split.
Qed.

(** [select_mailbox] on a mailbox that exists, run to its end. *)
Lemma select_run name ro m w :
  mailboxes w !! name = Some m ->
  let sel := fresh (dom (views w)) in
  let readonly := ro || mbx_readonly m in
  let v1 := if readonly then new_selected name readonly
            else claim_view (new_selected name readonly) (mbx_messages m) in
  let m2 := if readonly then register sel m
            else with_messages (fun st => saved st (claimed st))
                   (register sel m) in
  select_mailbox name ro w
  = (Return (snapshot_of m2, Some sel),
     set_view sel (synced v1 m2) (set_mbx name m2 w)).
Proof.
  intros Hm sel readonly v1 m2. unfold select_mailbox.
  rewrite (bind_return _ _ _ _ _ (get_mailbox_found _ _ _ _ Hm)).
  rewrite (bind_return _ _ _ _ _ (get_mbx_run _ _ _ Hm)).
  set (nv := new_selected name (ro || mbx_readonly m)).
  set (w1 := set_mbx name (register sel m) (set_view sel nv w)).
  assert (Hnew : SelectedMailbox_new name (ro || mbx_readonly m) name w
                 = (Return sel, w1)).
  { unfold SelectedMailbox_new. fold sel. fold nv.
    unfold bind at 1, put_view.
    now rewrite (bind_return _ _ _ _ _
                   (update_mbx_run name (register sel) m
                      (set_view sel nv w) Hm)). }
  rewrite (bind_return _ _ _ _ _ Hnew).
  assert (Hv1 : views w1 !! sel = Some nv) by apply views_set_view.
  assert (Hm1 : mailboxes w1 !! name = Some (register sel m))
    by apply mailboxes_set_mbx.
  rewrite (bind_return _ _ _ _ _ (get_view_run _ _ _ Hv1)).
  assert (Hmid : exists w2,
    (if negb (sel_readonly nv)
     then msgs <- messages name ;;
          recent_msgs <- claim_recent sel msgs [] ;;
          save_flags name (PyMsg <$> recent_msgs)
     else ret tt) w1 = (Return tt, w2)
    /\ w2 = set_view sel v1 (set_mbx name m2 w)).
  { subst v1 m2. unfold readonly. simpl.
    destruct (ro || mbx_readonly m) eqn:Hro; simpl.
    - eexists. split; [reflexivity|]. subst w1. fold nv.
      unfold set_view, set_mbx. reflexivity.
    - eexists. split.
      + unfold messages.
        rewrite (bind_return _ _ _ _ _
                   (bind_return _ _ _ _ _ (get_mbx_run _ _ _ Hm1))).
        rewrite (bind_return _ _ _ _ _ (claim_recent_run _ _ _ _ _ Hv1)).
        simpl app.
        assert (Hm1' : mailboxes
                  (set_view sel (claim_view nv (mbx_messages (register sel m))) w1)
                  !! name = Some (register sel m)) by exact Hm1.
        apply (save_flags_run _ _ _ _ Hm1').
      + subst w1. simpl. unfold set_view, set_mbx. simpl. f_equal.
        * now rewrite insert_insert_eq.
        * now rewrite insert_insert_eq. }
  destruct Hmid as (w2 & Hrun & ->).
  rewrite (bind_return _ _ _ _ _ Hrun).
  assert (Hm2 : mailboxes (set_view sel v1 (set_mbx name m2 w)) !! name
                = Some m2) by apply mailboxes_set_mbx.
  unfold snapshot.
  rewrite (bind_return _ _ _ _ _
             (bind_return _ _ _ _ _ (get_mbx_run _ _ _ Hm2))).
  assert (Hname : sel_name v1 = name).
  { subst v1. destruct readonly; [reflexivity|].
    now destruct (claim_view_fields (new_selected name false)
                    (mbx_messages m)) as (-> & _). }
  assert (Hv2 : views (set_view sel v1 (set_mbx name m2 w)) !! sel = Some v1)
    by apply views_set_view.
  assert (Hm3 : mailboxes (set_view sel v1 (set_mbx name m2 w))
                  !! sel_name v1 = Some m2) by now rewrite Hname.
  pose proof (load_updates_same _ _ _ _ Hv2 Hm3) as Hload.
  rewrite Hname in Hload.
  rewrite (bind_return _ _ _ _ _ Hload).
  unfold ret. now rewrite set_view_twice.
Qed.


(** C2: selecting a writable mailbox read-write returns the new view; in
    the store every message of the mailbox is left not recent, the UIDs
    as they were; the view's session flags hold as recent the UIDs of the
    messages that were recent, and those only; and no message of the
    mailbox is recent both on the message and in a view's session flags. *)
Theorem select_claims_recent name m w :
  mailboxes w !! name = Some m ->
  mbx_readonly m = false ->
  exists snap w' m' v',
    select_mailbox name false w
    = (Return (snap, Some (fresh (dom (views w)))), w')
    /\ mailboxes w' !! name = Some m'
    /\ views w' !! fresh (dom (views w)) = Some v'
    /\ sel_readonly v' = false
    /\ msg_uid <$> mbx_messages m' = msg_uid <$> mbx_messages m
    /\ (forall msg, msg ∈ mbx_messages m' -> msg_recent msg = false)
    /\ sf_recent (sel_session_flags v') = recent_uids (mbx_messages m)
    /\ (forall msg, msg ∈ mbx_messages m -> msg_recent msg = true ->
          msg_uid msg ∈ sf_recent (sel_session_flags v'))
    /\ (forall r v'' msg,
          views w' !! r = Some v'' -> msg ∈ mbx_messages m' ->
          ~ (msg_recent msg = true
             /\ msg_uid msg ∈ sf_recent (sel_session_flags v''))).
Proof.
  intros Hm Hrw.
  pose proof (select_run name false m w Hm) as Hrun.
  rewrite Hrw in Hrun. simpl in Hrun.
  set (sel := fresh (dom (views w))) in *.
  set (m' := with_messages (fun st => saved st (claimed st)) (register sel m))
    in *.
  set (v1 := claim_view (new_selected name false) (mbx_messages m)) in *.
  assert (Hclear : forall msg, msg ∈ mbx_messages m' -> msg_recent msg = false).
  { intros msg Hin. apply (saved_claimed_clear (mbx_messages m)). exact Hin. }
  assert (Hrec : sf_recent (sel_session_flags (synced v1 m'))
                 = recent_uids (mbx_messages m)).
  { destruct (synced_fields v1 m') as (_&_&_&->). unfold v1.
    destruct (claim_view_fields (new_selected name false) (mbx_messages m))
      as (_&_&->). simpl. apply (right_id_L ∅ (∪)). }
  exists (snapshot_of m'), (set_view sel (synced v1 m') (set_mbx name m' w)),
    m', (synced v1 m').
  split; [exact Hrun|].
  split; [apply mailboxes_set_mbx|].
  split; [apply views_set_view|].
  split.
  { destruct (synced_fields v1 m') as (_&->&_). unfold v1.
    now destruct (claim_view_fields (new_selected name false) (mbx_messages m))
      as (_&->&_). }
  split; [apply (saved_uids (claimed (mbx_messages m)))|].
  split; [exact Hclear|].
  split; [exact Hrec|].
  split.
  - intros msg Hin Hr. rewrite Hrec. unfold recent_uids.
    apply elem_of_list_to_set, list_elem_of_fmap.
    exists msg. split; [reflexivity|]. apply list_elem_of_filter. now split.
  - intros r v'' msg _ Hin [Hr _]. rewrite (Hclear msg Hin) in Hr. discriminate.
Qed.

(** C10: the view that Select makes is read-only exactly when read-only
    was asked for or the mailbox is read-only; when it is, Expunge and
    Update-Flags through it are rejected. *)
Theorem select_readonly_disjunction name readonly m w :
  mailboxes w !! name = Some m ->
  exists snap w' v',
    select_mailbox name readonly w
    = (Return (snap, Some (fresh (dom (views w)))), w')
    /\ views w' !! fresh (dom (views w)) = Some v'
    /\ sel_name v' = name
    /\ sel_readonly v' = readonly || mbx_readonly m
    /\ (readonly || mbx_readonly m = true ->
        forall uid_set sequence_set flag_set mode,
          expunge_mailbox (fresh (dom (views w))) uid_set w'
          = (Raise (MailboxReadOnly name), w')
          /\ update_flags (fresh (dom (views w))) sequence_set flag_set mode w'
             = (Raise (MailboxReadOnly name), w')).
Proof.
  intros Hm.
  pose proof (select_run name readonly m w Hm) as Hrun. simpl in Hrun.
  set (sel := fresh (dom (views w))) in *.
  set (ro := readonly || mbx_readonly m) in *.
  set (v1 := if ro then new_selected name ro
             else claim_view (new_selected name ro) (mbx_messages m)) in *.
  set (m2 := if ro then register sel m
             else with_messages (fun st => saved st (claimed st))
                    (register sel m)) in *.
  assert (Hfields : sel_name (synced v1 m2) = name
                    /\ sel_readonly (synced v1 m2) = ro).
  { destruct (synced_fields v1 m2) as (->&->&_).
    subst v1. destruct ro eqn:Hro; [easy|].
    now destruct (claim_view_fields (new_selected name false) (mbx_messages m))
      as (->&->&_). }
  destruct Hfields as [Hname Hro].
  exists (snapshot_of m2), (set_view sel (synced v1 m2) (set_mbx name m2 w)),
    (synced v1 m2).
  split; [exact Hrun|].
  split; [apply views_set_view|].
  split; [exact Hname|].
  split; [exact Hro|].
  intros Htrue uid_set sequence_set flag_set mode.
  set (w' := set_view sel (synced v1 m2) (set_mbx name m2 w)).
  assert (Hv' : views w' !! sel = Some (synced v1 m2)) by apply views_set_view.
  assert (Hro' : sel_readonly (synced v1 m2) = true) by congruence.
  rewrite <- Hname at 1 2. split.
  - exact (expunge_readonly _ _ _ _ Hv' Hro').
  - exact (update_flags_readonly _ _ _ _ _ _ Hv' Hro').
Qed.


(** ** Append and Copy *)

Lemma add_run h msg recent m w :
  mailboxes w !! h = Some m ->
  add h msg recent w
  = (Return (stamp (mbx_next_uid m) recent msg),
     set_mbx h (push (stamp (mbx_next_uid m) recent msg) m) w).
Proof.
  intros Hm. unfold add.
  now rewrite (bind_return _ _ _ _ _ (get_mbx_run _ _ _ Hm)).
Qed.

Lemma add_all_nil recent m : add_all recent m [] = m.
Proof.
  destruct m. unfold add_all. simpl. f_equal.
  - apply app_nil_r.
  - lia.
Qed.

Lemma add_all_push recent m msg rest :
  add_all recent (push (stamp (mbx_next_uid m) recent msg) m) rest
  = add_all recent m (msg :: rest).
Proof.
  unfold add_all, push. simpl. f_equal.
  - now rewrite <- app_assoc.
  - lia.
Qed.

Lemma marked_nil dest w : marked dest [] w = w.
Proof.
  unfold marked. destruct dest as [d|]; [|reflexivity].
  destruct (views w !! d) eqn:Hd; [|reflexivity].
  now apply set_view_id.
Qed.

Lemma marked_cons dest u us w :
  marked dest us (marked dest [u] w) = marked dest (u :: us) w.
Proof.
  unfold marked. destruct dest as [d|]; [|reflexivity].
  destruct (views w !! d) as [vd|] eqn:Hd.
  - rewrite views_set_view. now rewrite set_view_twice.
  - now rewrite Hd.
Qed.

Lemma marked_set_mbx dest us h m w :
  marked dest us (set_mbx h m w) = set_mbx h m (marked dest us w).
Proof.
  unfold marked. destruct dest as [d|]; [|reflexivity].
  simpl. now destruct (views w !! d).
Qed.

Lemma mailboxes_marked dest us w : mailboxes (marked dest us w) = mailboxes w.
Proof.
  unfold marked. destruct dest as [d|]; [|reflexivity].
  now destruct (views w !! d).
Qed.

Lemma marked_live dest us w r :
  is_Some (views w !! r) -> is_Some (views (marked dest us w) !! r).
Proof.
  intros Hr. unfold marked. destruct dest as [d|]; [|exact Hr].
  destruct (views w !! d) eqn:Hd; [|exact Hr]. simpl.
  destruct (decide (d = r)) as [->|Hne].
  - rewrite lookup_insert_eq. eauto.
  - now rewrite lookup_insert_ne.
Qed.

Lemma mark_recent_run dest u w :
  (forall d, dest = Some d -> is_Some (views w !! d)) ->
  mark_recent dest u w = (Return tt, marked dest [u] w).
Proof.
  intros Hlive. unfold mark_recent, marked. destruct dest as [d|]; [|reflexivity].
  destruct (Hlive d eq_refl) as [vd Hd]. rewrite Hd.
  apply (update_view_run _ _ _ _ Hd).
Qed.

Lemma append_loop_run h dest msgs : forall uids m w,
  mailboxes w !! h = Some m ->
  (forall d, dest = Some d -> is_Some (views w !! d)) ->
  let recent := negb (bool_decide (is_Some dest)) in
  let new := stamped (mbx_next_uid m) recent (parse_message <$> msgs) in
  append_loop h dest msgs uids w
  = (Return (uids ++ (msg_uid <$> new)),
     set_mbx h (add_all recent m (parse_message <$> msgs))
       (marked dest (msg_uid <$> new) w)).
Proof.
  induction msgs as [|a msgs IH]; intros uids m w Hm Hlive; simpl.
  - unfold ret. now rewrite app_nil_r, marked_nil, add_all_nil, set_mbx_id.
  - rewrite (bind_return _ _ _ _ _ (add_run _ _ _ _ _ Hm)).
    set (recent := negb (bool_decide (is_Some dest))).
    set (s0 := stamp (mbx_next_uid m) recent (parse_message a)).
    set (w1 := set_mbx h (push s0 m) w).
    assert (Hlive1 : forall d, dest = Some d -> is_Some (views w1 !! d))
      by exact Hlive.
    rewrite (bind_return _ _ _ _ _ (mark_recent_run _ _ _ Hlive1)).
    rewrite (IH _ (push s0 m)).
    + simpl. rewrite <- app_assoc. simpl. f_equal. subst w1 s0 recent.
      rewrite marked_cons, marked_set_mbx, set_mbx_twice.
      now rewrite add_all_push.
    + rewrite mailboxes_marked. apply mailboxes_set_mbx.
    + intros d Hd. apply marked_live, Hlive1, Hd.
Qed.

(** The pairs of source and destination UIDs that Copy reports. *)
Lemma copy_loop_run dest_mbx dest found : forall uids m w,
  mailboxes w !! dest_mbx = Some m ->
  (forall d, dest = Some d -> is_Some (views w !! d)) ->
  let recent := negb (bool_decide (is_Some dest)) in
  let new := stamped (mbx_next_uid m) recent (snd <$> found) in
  copy_loop dest_mbx dest found uids w
  = (Return (uids ++ zip (msg_uid <$> (snd <$> found)) (msg_uid <$> new)),
     set_mbx dest_mbx (add_all recent m (snd <$> found))
       (marked dest (msg_uid <$> new) w)).
Proof.
  induction found as [|[seq a] found IH]; intros uids m w Hm Hlive; simpl.
  - unfold ret. now rewrite app_nil_r, marked_nil, add_all_nil, set_mbx_id.
  - rewrite (bind_return _ _ _ _ _ (add_run _ _ _ _ _ Hm)).
    set (recent := negb (bool_decide (is_Some dest))).
    set (s0 := stamp (mbx_next_uid m) recent a).
    set (w1 := set_mbx dest_mbx (push s0 m) w).
    assert (Hlive1 : forall d, dest = Some d -> is_Some (views w1 !! d))
      by exact Hlive.
    rewrite (bind_return _ _ _ _ _ (mark_recent_run _ _ _ Hlive1)).
    rewrite (IH _ (push s0 m)).
    + simpl. rewrite <- app_assoc. simpl. f_equal. subst w1 s0 recent.
      rewrite marked_cons, marked_set_mbx, set_mbx_twice.
      now rewrite add_all_push.
    + rewrite mailboxes_marked. apply mailboxes_set_mbx.
    + intros d Hd. apply marked_live, Hlive1, Hd.
Qed.

Lemma stamped_recent recent msgs : forall uid s,
  s ∈ stamped uid recent msgs -> msg_recent s = recent.
Proof.
  induction msgs as [|msg msgs IH]; intros uid s Hs; simpl in Hs.
  - inversion Hs.
  - apply elem_of_cons in Hs as [->|Hs]; [reflexivity|].
    apply (IH _ _ Hs).
Qed.

Lemma mark_all_recent uids : forall v,
  sf_recent (sel_session_flags (mark_all uids v))
  = list_to_set uids ∪ sf_recent (sel_session_flags v).
Proof.
  induction uids as [|u uids IH]; intros v; simpl.
  - apply union_empty_left.
  - rewrite IH. simpl. apply union_singleton_shift.
Qed.

Lemma session_recent_marked_some d vd us w :
  views w !! d = Some vd ->
  session_recent (marked (Some d) us w) d
  = Some (list_to_set us ∪ sf_recent (sel_session_flags vd)).
Proof.
  intros Hd. unfold session_recent, marked. rewrite Hd, views_set_view.
  simpl. now rewrite mark_all_recent.
Qed.

(** A synchronisation of a live view, or of none, returns what it was
    given and touches neither a mailbox nor a session flag. *)
Lemma load_updates_keeps selected mbx w :
  (forall sel, selected = Some sel -> is_Some (views w !! sel)) ->
  (forall h, mbx = Some h -> is_Some (mailboxes w !! h)) ->
  exists w',
    _load_updates selected mbx w = (Return selected, w')
    /\ mailboxes w' = mailboxes w
    /\ (forall r, session_recent w' r = session_recent w r).
Proof.
  intros Hsel Hmbx. destruct selected as [sel|].
  - destruct (Hsel sel eq_refl) as [v Hv].
    destruct (load_updates_total sel v mbx w Hv Hmbx)
      as (v' & Hrun & _ & _ & Hsf & _).
    exists (set_view sel v' w). split; [exact Hrun|]. split; [reflexivity|].
    intros r. unfold session_recent. simpl.
    destruct (decide (sel = r)) as [->|Hne].
    + rewrite lookup_insert_eq, Hv. simpl. now rewrite Hsf.
    + now rewrite lookup_insert_ne.
  - exists w. easy.
Qed.


Lemma find_selected_own sel v mbx m w :
  views w !! sel = Some v ->
  mailboxes w !! mbx = Some m ->
  sel_name v = mbx ->
  _find_selected (Some sel) mbx w = (Return (Some sel), w).
Proof.
  intros Hv Hm Hname. unfold _find_selected.
  rewrite (bind_return _ _ _ _ _ (get_view_run _ _ _ Hv)).
  now rewrite bool_decide_eq_true_2.
Qed.

Lemma find_selected_other selected mbx m w :
  mailboxes w !! mbx = Some m ->
  selected = None
  \/ (exists sel v, selected = Some sel /\ views w !! sel = Some v
                    /\ sel_name v <> mbx) ->
  _find_selected selected mbx w = (Return (any_selected (selected_set m)), w).
Proof.
  intros Hm [->|(sel & v & -> & Hv & Hne)]; unfold _find_selected.
  - now rewrite (bind_return _ _ _ _ _ (get_mbx_run _ _ _ Hm)).
  - rewrite (bind_return _ _ _ _ _ (get_view_run _ _ _ Hv)).
    rewrite bool_decide_eq_false_2 by exact Hne.
    now rewrite (bind_return _ _ _ _ _ (get_mbx_run _ _ _ Hm)).
Qed.

Lemma set_updated_run h m w :
  mailboxes w !! h = Some m ->
  set_updated h w = (Return tt, set_mbx h (signal m) w).
Proof. apply update_mbx_run. Qed.

Lemma session_recent_set_mbx h m w r :
  session_recent (set_mbx h m w) r = session_recent w r.
Proof. reflexivity. Qed.

(** [append_messages], run from the resolution of the destination on. *)
Lemma append_run name msgs selected w w1 m dest :
  get_mailbox name true w = (Return name, w1) ->
  mailboxes w1 !! name = Some m ->
  mbx_readonly m = false ->
  _find_selected selected name w1 = (Return dest, w1) ->
  (forall sel, selected = Some sel -> is_Some (views w1 !! sel)) ->
  (forall d, dest = Some d -> is_Some (views w1 !! d)) ->
  let recent := negb (bool_decide (is_Some dest)) in
  let new := stamped (mbx_next_uid m) recent (parse_message <$> msgs) in
  exists w',
    append_messages name msgs selected w
    = (Return ((mbx_uid_validity m, msg_uid <$> new), selected), w')
    /\ mailboxes w' !! name
       = Some (signal (add_all recent m (parse_message <$> msgs)))
    /\ (forall r, session_recent w' r
                  = session_recent (marked dest (msg_uid <$> new) w1) r).
Proof.
  intros Hget Hm Hrw Hfind Hsel Hdest recent new.
  unfold append_messages.
  rewrite (bind_return _ _ _ _ _ Hget).
  rewrite (bind_return _ _ _ _ _ (get_mbx_run _ _ _ Hm)).
  rewrite Hrw.
  rewrite (bind_return _ _ _ _ _ Hfind).
  rewrite (bind_return _ _ _ _ _
             (append_loop_run name dest msgs [] m w1 Hm Hdest)).
  fold recent. fold new. simpl app.
  set (w2 := set_mbx name (add_all recent m (parse_message <$> msgs))
               (marked dest (msg_uid <$> new) w1)).
  assert (Hm2 : mailboxes w2 !! name
                = Some (add_all recent m (parse_message <$> msgs)))
    by apply mailboxes_set_mbx.
  rewrite (bind_return _ _ _ _ _ (set_updated_run _ _ _ Hm2)).
  set (w3 := set_mbx name (signal (add_all recent m (parse_message <$> msgs))) w2).
  assert (Hm3 : mailboxes w3 !! name
                = Some (signal (add_all recent m (parse_message <$> msgs))))
    by apply mailboxes_set_mbx.
  rewrite (bind_return _ _ _ _ _ (get_mbx_run _ _ _ Hm3)).
  destruct (load_updates_keeps selected (Some name) w3) as (w' & Hrun & Hmb & Hsf).
  { intros sel Heq. apply (marked_live dest (msg_uid <$> new) w1 sel).
    now apply Hsel. }
  { intros h [= <-]. eauto. }
  rewrite (bind_return _ _ _ _ _ Hrun).
  exists w'. split; [reflexivity|]. split; [now rewrite Hmb|].
  intros r. now rewrite Hsf.
Qed.

Lemma find_run mbx sequence_set selected m v w :
  mailboxes w !! mbx = Some m ->
  views w !! selected = Some v ->
  find mbx sequence_set selected w = (Return (find_in sequence_set v m), w).
Proof.
  intros Hm Hv. unfold find.
  rewrite (bind_return _ _ _ _ _ (get_mbx_run _ _ _ Hm)).
  now rewrite (bind_return _ _ _ _ _ (get_view_run _ _ _ Hv)).
Qed.

(** [copy_messages], run from the resolution of the destination on. *)
Lemma copy_run selected sequence_set mailbox v src w w1 m dest :
  views w !! selected = Some v ->
  is_Some (mailboxes w !! sel_name v) ->
  get_mailbox mailbox true w = (Return mailbox, w1) ->
  views w1 = views w ->
  mailboxes w1 !! sel_name v = Some src ->
  mailboxes w1 !! mailbox = Some m ->
  mbx_readonly m = false ->
  _find_selected (Some selected) mailbox w1 = (Return dest, w1) ->
  (forall d, dest = Some d -> is_Some (views w1 !! d)) ->
  let recent := negb (bool_decide (is_Some dest)) in
  let found := find_in sequence_set v src in
  let new := stamped (mbx_next_uid m) recent (snd <$> found) in
  exists w',
    copy_messages selected sequence_set mailbox w
    = (Return ((mbx_uid_validity m,
                zip (msg_uid <$> (snd <$> found)) (msg_uid <$> new)),
               Some selected), w')
    /\ mailboxes w' !! mailbox
       = Some (signal (add_all recent m (snd <$> found)))
    /\ (forall r, session_recent w' r
                  = session_recent (marked dest (msg_uid <$> new) w1) r).
Proof.
  intros Hv [src0 Hsrc0] Hget Hviews Hsrc Hm Hrw Hfind Hdest recent found new.
  assert (Hv1 : views w1 !! selected = Some v) by now rewrite Hviews.
  unfold copy_messages.
  rewrite (bind_return _ _ _ _ _ (get_view_run _ _ _ Hv)).
  rewrite (bind_return _ _ _ _ _ (get_mailbox_found _ false _ _ Hsrc0)).
  rewrite (bind_return _ _ _ _ _ Hget).
  rewrite (bind_return _ _ _ _ _ (get_mbx_run _ _ _ Hm)).
  rewrite Hrw.
  rewrite (bind_return _ _ _ _ _ Hfind).
  rewrite (bind_return _ _ _ _ _ (find_run _ sequence_set _ _ _ _ Hsrc Hv1)).
  fold found.
  rewrite (bind_return _ _ _ _ _
             (copy_loop_run mailbox dest found [] m w1 Hm Hdest)).
  fold recent. fold new. simpl app.
  set (w2 := set_mbx mailbox (add_all recent m (snd <$> found))
               (marked dest (msg_uid <$> new) w1)).
  assert (Hm2 : mailboxes w2 !! mailbox
                = Some (add_all recent m (snd <$> found)))
    by apply mailboxes_set_mbx.
  rewrite (bind_return _ _ _ _ _ (set_updated_run _ _ _ Hm2)).
  set (w3 := set_mbx mailbox (signal (add_all recent m (snd <$> found))) w2).
  assert (Hm3 : mailboxes w3 !! mailbox
                = Some (signal (add_all recent m (snd <$> found))))
    by apply mailboxes_set_mbx.
  rewrite (bind_return _ _ _ _ _ (get_mbx_run _ _ _ Hm3)).
  destruct (load_updates_keeps (Some selected) (Some (sel_name v)) w3)
    as (w' & Hrun & Hmb & Hsf).
  { intros sel [= <-]. apply (marked_live dest (msg_uid <$> new) w1 selected).
    eauto. }
  { intros h [= <-]. subst w3 w2. simpl.
    rewrite mailboxes_marked.
    destruct (decide (mailbox = sel_name v)) as [->|Hne].
    - rewrite lookup_insert_eq. eauto.
    - rewrite !lookup_insert_ne by exact Hne. eauto. }
  rewrite (bind_return _ _ _ _ _ Hrun).
  exists w'. split; [reflexivity|]. split; [now rewrite Hmb|].
  intros r. now rewrite Hsf.
Qed.


Lemma get_mailbox_created name w :
  mailboxes w !! name = None ->
  get_mailbox name true w = (Return name, created name w).
Proof. intros H. unfold get_mailbox. now rewrite H. Qed.

Lemma recency_of_marked dest new w1 w' :
  (forall d, dest = Some d -> is_Some (views w1 !! d)) ->
  (forall r, session_recent w' r = session_recent (marked dest new w1) r) ->
  match dest with
  | Some d => exists before,
      session_recent w1 d = Some before
      /\ session_recent w' d = Some (list_to_set new ∪ before)
  | None => forall r, session_recent w' r = session_recent w1 r
  end.
Proof.
  intros Hdest Hsf. destruct dest as [d|]; [|exact Hsf].
  destruct (Hdest d eq_refl) as [vd Hd].
  exists (sf_recent (sel_session_flags vd)). split.
  - unfold session_recent. now rewrite Hd.
  - rewrite Hsf. now apply session_recent_marked_some.
Qed.


Lemma get_mailbox_try name w :
  get_mailbox name true w = (Return name, snd (get_mailbox name true w))
  /\ views (snd (get_mailbox name true w)) = views w
  /\ is_Some (mailboxes (snd (get_mailbox name true w)) !! name)
  /\ (forall h m, mailboxes w !! h = Some m ->
        mailboxes (snd (get_mailbox name true w)) !! h = Some m).
Proof.
  unfold get_mailbox. destruct (mailboxes w !! name) as [m|] eqn:Hm; simpl.
  - repeat split; eauto.
  - repeat split.
    + rewrite lookup_insert_eq. eauto.
    + intros h m Hh. rewrite lookup_insert_ne; [exact Hh|]. congruence.
Qed.

Lemma find_selected_total selected mbx m w :
  mailboxes w !! mbx = Some m ->
  (forall sel, selected = Some sel -> is_Some (views w !! sel)) ->
  (forall r, r ∈ registered (selected_set m) -> is_Some (views w !! r)) ->
  exists dest,
    _find_selected selected mbx w = (Return dest, w)
    /\ (forall d, dest = Some d -> is_Some (views w !! d)).
Proof.
  intros Hm Hsel Hreg.
  assert (Hany : forall d, any_selected (selected_set m) = Some d ->
                   is_Some (views w !! d)).
  { intros d Hd. apply Hreg. unfold any_selected in Hd.
    destruct (registered (selected_set m)); [discriminate|].
    injection Hd as ->. now left. }
  destruct selected as [sel|].
  - destruct (Hsel sel eq_refl) as [v Hv].
    destruct (decide (sel_name v = mbx)) as [Heq|Hne].
    + exists (Some sel). split; [apply (find_selected_own _ _ _ _ _ Hv Hm Heq)|].
      intros d [= <-]. eauto.
    + exists (any_selected (selected_set m)). split; [|exact Hany].
      apply (find_selected_other _ _ _ _ Hm). right. eauto.
  - exists (any_selected (selected_set m)). split; [|exact Hany].
    apply (find_selected_other _ _ _ _ Hm). now left.
Qed.

(** C3: the view that takes the recency of the messages added to a
    destination is the caller's own view when that names the destination,
    and any view of the destination's registry otherwise.  Append and Copy
    store every added message not recent and mark its UID recent in that
    view's session flags when there is such a view, and store it recent,
    no session flag touched, when there is none. *)
Theorem append_copy_recency :
  (forall selected mbx m w,
     mailboxes w !! mbx = Some m ->
     (forall sel v, selected = Some sel -> views w !! sel = Some v ->
        sel_name v = mbx ->
        _find_selected selected mbx w = (Return (Some sel), w))
     /\ (selected = None
         \/ (exists sel v, selected = Some sel /\ views w !! sel = Some v
                           /\ sel_name v <> mbx) ->
         _find_selected selected mbx w
         = (Return (any_selected (selected_set m)), w)
         /\ (forall r, any_selected (selected_set m) = Some r ->
               r ∈ registered (selected_set m))
         /\ (any_selected (selected_set m) = None ->
               registered (selected_set m) = [])))
  /\ (forall name msgs selected w m,
        let w1 := snd (get_mailbox name true w) in
        mailboxes w1 !! name = Some m ->
        mbx_readonly m = false ->
        (forall sel, selected = Some sel -> is_Some (views w !! sel)) ->
        (forall r, r ∈ registered (selected_set m) -> is_Some (views w !! r)) ->
        exists dest new w' m',
          _find_selected selected name w1 = (Return dest, w1)
          /\ new = stamped (mbx_next_uid m)
                     (negb (bool_decide (is_Some dest)))
                     (parse_message <$> msgs)
          /\ append_messages name msgs selected w
             = (Return ((mbx_uid_validity m, msg_uid <$> new), selected), w')
          /\ mailboxes w' !! name = Some m'
          /\ mbx_messages m' = mbx_messages m ++ new
          /\ (is_Some dest -> forall s, s ∈ new -> msg_recent s = false)
          /\ (dest = None -> forall s, s ∈ new -> msg_recent s = true)
          /\ match dest with
             | Some d => exists before,
                 session_recent w d = Some before
                 /\ session_recent w' d
                    = Some (list_to_set (msg_uid <$> new) ∪ before)
             | None => forall r, session_recent w' r = session_recent w r
             end)
  /\ (forall selected sequence_set mailbox v src w m,
        let w1 := snd (get_mailbox mailbox true w) in
        views w !! selected = Some v ->
        mailboxes w !! sel_name v = Some src ->
        mailboxes w1 !! mailbox = Some m ->
        mbx_readonly m = false ->
        (forall r, r ∈ registered (selected_set m) -> is_Some (views w !! r)) ->
        exists dest new w' m',
          _find_selected (Some selected) mailbox w1 = (Return dest, w1)
          /\ new = stamped (mbx_next_uid m)
                     (negb (bool_decide (is_Some dest)))
                     (snd <$> find_in sequence_set v src)
          /\ copy_messages selected sequence_set mailbox w
             = (Return ((mbx_uid_validity m,
                         zip (msg_uid <$> (snd <$> find_in sequence_set v src))
                           (msg_uid <$> new)),
                        Some selected), w')
          /\ mailboxes w' !! mailbox = Some m'
          /\ mbx_messages m' = mbx_messages m ++ new
          /\ (is_Some dest -> forall s, s ∈ new -> msg_recent s = false)
          /\ (dest = None -> forall s, s ∈ new -> msg_recent s = true)
          /\ match dest with
             | Some d => exists before,
                 session_recent w d = Some before
                 /\ session_recent w' d
                    = Some (list_to_set (msg_uid <$> new) ∪ before)
             | None => forall r, session_recent w' r = session_recent w r
             end).
Proof.
  assert (Hrecent : forall (dest : option ref) u msgs,
    (is_Some dest -> forall s,
       s ∈ stamped u (negb (bool_decide (is_Some dest))) msgs ->
       msg_recent s = false)
    /\ (dest = None -> forall s,
          s ∈ stamped u (negb (bool_decide (is_Some dest))) msgs ->
          msg_recent s = true)).
  { intros dest u msgs. split.
    - intros Hsome s Hs. apply stamped_recent in Hs.
      now rewrite bool_decide_eq_true_2 in Hs.
    - intros -> s Hs. apply stamped_recent in Hs.
      rewrite bool_decide_eq_false_2 in Hs; [exact Hs|].
      intros [? [=]]. }
  split; [|split].
  - intros selected mbx m w Hm. split.
    + intros sel v -> Hv Hname. apply (find_selected_own _ _ _ _ _ Hv Hm Hname).
    + intros Hother. split; [apply (find_selected_other _ _ _ _ Hm Hother)|].
      unfold any_selected. destruct (registered (selected_set m)) as [|r0 rs].
      * split; [discriminate|reflexivity].
      * split; [|discriminate]. intros r [= <-]. now left.
  - intros name msgs selected w m w1 Hm Hrw Hsel Hreg.
    destruct (get_mailbox_try name w) as (Hget & Hviews & _ & _).
    fold w1 in Hget, Hviews.
    assert (Hsel1 : forall sel, selected = Some sel -> is_Some (views w1 !! sel))
      by (rewrite Hviews; exact Hsel).
    assert (Hreg1 : forall r, r ∈ registered (selected_set m) ->
                      is_Some (views w1 !! r))
      by (rewrite Hviews; exact Hreg).
    destruct (find_selected_total selected name m w1 Hm Hsel1 Hreg1)
      as (dest & Hfind & Hdest).
    destruct (append_run name msgs selected w w1 m dest Hget Hm Hrw Hfind
                Hsel1 Hdest) as (w' & Hrun & Hm' & Hsf).
    exists dest. eexists _, w', _. split; [exact Hfind|].
    split; [reflexivity|].
    split; [exact Hrun|]. split; [exact Hm'|]. split; [reflexivity|].
    split; [apply Hrecent|]. split; [apply Hrecent|].
    pose proof (recency_of_marked _ _ _ _ Hdest Hsf) as Hrec.
    unfold session_recent in *. now rewrite Hviews in Hrec.
  - intros selected sequence_set mailbox v src w m w1 Hv Hsrc Hm Hrw Hreg.
    destruct (get_mailbox_try mailbox w) as (Hget & Hviews & _ & Hkeep).
    fold w1 in Hget, Hviews, Hkeep.
    assert (Hv1 : views w1 !! selected = Some v) by now rewrite Hviews.
    assert (Hsel1 : forall sel, Some selected = Some sel ->
                      is_Some (views w1 !! sel))
      by (intros sel [= <-]; eauto).
    assert (Hreg1 : forall r, r ∈ registered (selected_set m) ->
                      is_Some (views w1 !! r))
      by (rewrite Hviews; exact Hreg).
    destruct (find_selected_total (Some selected) mailbox m w1 Hm Hsel1 Hreg1)
      as (dest & Hfind & Hdest).
    destruct (copy_run selected sequence_set mailbox v src w w1 m dest
                Hv (ex_intro _ src Hsrc) Hget Hviews (Hkeep _ _ Hsrc) Hm Hrw
                Hfind Hdest)
      as (w' & Hrun & Hm' & Hsf).
    exists dest. eexists _, w', _. split; [exact Hfind|].
    split; [reflexivity|].
    split; [exact Hrun|]. split; [exact Hm'|]. split; [reflexivity|].
    split; [apply Hrecent|]. split; [apply Hrecent|].
    pose proof (recency_of_marked _ _ _ _ Hdest Hsf) as Hrec.
    unfold session_recent in *. now rewrite Hviews in Hrec.
Qed.


(** C9, as the code has it: Append to a name that does not exist creates
    the mailbox and goes on, and so does Copy when the mailbox of the
    caller's view still resolves; the mailbox of the view is resolved
    first, and when that one is gone Copy raises [MailboxNotFound] for it
    with nothing created. *)
Theorem destination_created_on_demand :
  (forall name msgs selected w,
     mailboxes w !! name = None ->
     (forall sel, selected = Some sel -> is_Some (views w !! sel)) ->
     exists uids w' m',
       append_messages name msgs selected w
       = (Return ((next_uid_validity w, uids), selected), w')
       /\ mailboxes w' !! name = Some m')
  /\ (forall selected sequence_set mailbox v src w,
        views w !! selected = Some v ->
        mailboxes w !! sel_name v = Some src ->
        mailboxes w !! mailbox = None ->
        exists uids w' m',
          copy_messages selected sequence_set mailbox w
          = (Return ((next_uid_validity w, uids), Some selected), w')
          /\ mailboxes w' !! mailbox = Some m')
  /\ (forall selected sequence_set mailbox v w,
        views w !! selected = Some v ->
        mailboxes w !! sel_name v = None ->
        copy_messages selected sequence_set mailbox w
        = (Raise (MailboxNotFound (sel_name v)), w)).
Proof.
  split; [|split].
  - intros name msgs selected w Hnone Hsel.
    pose proof (get_mailbox_created name w Hnone) as Hget.
    set (m := new_mailbox (next_uid_validity w)).
    assert (Hm : mailboxes (created name w) !! name = Some m)
      by (simpl; apply lookup_insert_eq).
    assert (Hsel1 : forall sel, selected = Some sel ->
                      is_Some (views (created name w) !! sel)) by exact Hsel.
    destruct (find_selected_total selected name m (created name w) Hm Hsel1)
      as (dest & Hfind & Hdest).
    { intros r Hr. inversion Hr. }
    destruct (append_run name msgs selected w _ m dest Hget Hm eq_refl Hfind
                Hsel1 Hdest) as (w' & Hrun & Hm' & _).
    eexists _, w', _. split; [exact Hrun|exact Hm'].
  - intros selected sequence_set mailbox v src w Hv Hsrc Hnone.
    pose proof (get_mailbox_created mailbox w Hnone) as Hget.
    set (m := new_mailbox (next_uid_validity w)).
    assert (Hm : mailboxes (created mailbox w) !! mailbox = Some m)
      by (simpl; apply lookup_insert_eq).
    assert (Hsrc1 : mailboxes (created mailbox w) !! sel_name v = Some src).
    { simpl. rewrite lookup_insert_ne; [exact Hsrc|]. congruence. }
    assert (Hsel1 : forall sel, Some selected = Some sel ->
                      is_Some (views (created mailbox w) !! sel))
      by (intros sel [= <-]; simpl; eauto).
    destruct (find_selected_total (Some selected) mailbox m
                (created mailbox w) Hm Hsel1) as (dest & Hfind & Hdest).
    { intros r Hr. inversion Hr. }
    destruct (copy_run selected sequence_set mailbox v src w _ m dest
                Hv (ex_intro _ src Hsrc) Hget eq_refl Hsrc1 Hm eq_refl
                Hfind Hdest) as (w' & Hrun & Hm' & _).
    eexists _, w', _. split; [exact Hrun|exact Hm'].
  - intros selected sequence_set mailbox v w Hv Hnone.
    unfold copy_messages.
    rewrite (bind_return _ _ _ _ _ (get_view_run _ _ _ Hv)).
    now rewrite (bind_raise _ _ _ _ _ (get_mailbox_missing _ _ Hnone)).
Qed.

(** ** Fetch *)

(** The argument list of the [save_flags] call of Fetch is one generator
    object: it is not the list of the matched messages, which the calls of
    Select and Update-Flags unpack, and it holds no message. *)
Lemma fetch_save_args_shape found :
  fetch_save_args found = [PyGen (snd <$> found)]
  /\ fetch_save_args found <> PyMsg <$> (snd <$> found)
  /\ forall msg, PyMsg msg ∉ fetch_save_args found.
Proof.
  unfold fetch_save_args. split; [reflexivity|]. split.
  - destruct found; discriminate.
  - intros msg Hin. apply list_elem_of_singleton in Hin. discriminate.
Qed.

(** Fetch that marks seen through a writable view: the call of
    [save_flags] finds no message to read in its argument, and the store
    is as it was. *)
Lemma fetch_seen_not_saved selected v m sequence_set attributes w :
  views w !! selected = Some v ->
  mailboxes w !! sel_name v = Some m ->
  sel_readonly v = false ->
  existsb set_seen attributes = true ->
  fetch_messages selected sequence_set attributes w = (Raise AttributeError, w).
Proof.
  intros Hv Hm Hrw Hseen. unfold fetch_messages.
  rewrite (bind_return _ _ _ _ _ (get_view_run _ _ _ Hv)).
  rewrite (bind_return _ _ _ _ _ (get_mailbox_found _ false _ _ Hm)).
  rewrite (bind_return _ _ _ _ _ (find_run _ sequence_set _ _ _ _ Hm Hv)).
  rewrite Hrw, Hseen. reflexivity.
Qed.

(** Fetch through a read-only view, or of attributes none of which marks
    seen, returns the matched messages as they are stored and changes no
    mailbox. *)
Lemma fetch_unseen_keeps_flags selected v m sequence_set attributes w :
  views w !! selected = Some v ->
  mailboxes w !! sel_name v = Some m ->
  sel_readonly v = true \/ existsb set_seen attributes = false ->
  exists w',
    fetch_messages selected sequence_set attributes w
    = (Return (find_in sequence_set v m, Some selected), w')
    /\ mailboxes w' = mailboxes w.
Proof.
  intros Hv Hm Hno. unfold fetch_messages.
  rewrite (bind_return _ _ _ _ _ (get_view_run _ _ _ Hv)).
  rewrite (bind_return _ _ _ _ _ (get_mailbox_found _ false _ _ Hm)).
  rewrite (bind_return _ _ _ _ _ (find_run _ sequence_set _ _ _ _ Hm Hv)).
  assert (Hcond : negb (sel_readonly v) && existsb set_seen attributes = false).
  { destruct Hno as [->| ->]; [reflexivity|apply andb_false_r]. }
  rewrite Hcond. cbv [bind ret].
  rewrite (load_updates_same _ _ _ _ Hv Hm).
  eexists. split; reflexivity.
Qed.

(** ** Waiting *)

Lemma ceiling_cases (d : Q) :
  ((if Qle_bool d 10 then d else 10%Q) <= 10)%Q
  /\ ((if Qle_bool d 10 then d else 10%Q) <= d)%Q.
Proof.
  destruct (Qle_bool d 10) eqn:Hle.
  - apply Qle_bool_iff in Hle. split; [exact Hle|apply Qle_refl].
  - split; [apply Qle_refl|]. apply Qlt_le_weak, Qnot_le_lt.
    intros H. apply Qle_bool_iff in H. congruence.
Qed.

(** C8: [_wait_for_updates] returns normally whatever the wait does.  It
    takes no time when one of the two events is set already; otherwise it
    ends when the first of them is set, not later than either, if that is
    within the ceiling of 10, and at the ceiling if not, the
    [TimeoutError] of the wait being caught. *)
Theorem wait_for_updates_returns mbx wait_on :
  exists t,
    _wait_for_updates mbx wait_on = (Return tt, t)
    /\ (t <= 10)%Q
    /\ (is_set wait_on = true \/ is_set (updated (selected_set mbx)) = true ->
        t = 0%Q)
    /\ (is_set wait_on = false ->
        is_set (updated (selected_set mbx)) = false ->
        match min_delay (set_after wait_on)
                (set_after (updated (selected_set mbx))) with
        | Some d => t = (if Qle_bool d 10 then d else 10%Q)
        | None => t = 10%Q
        end
        /\ (forall d, set_after wait_on = Some d -> (t <= d)%Q)
        /\ (forall d, set_after (updated (selected_set mbx)) = Some d ->
              (t <= d)%Q)).
Proof.
  unfold _wait_for_updates, event_wait, fires_after, or_event. simpl.
  set (up := updated (selected_set mbx)).
  destruct (is_set wait_on) eqn:Ha; simpl.
  { exists 0%Q. split; [reflexivity|]. split; [discriminate|].
    split; [reflexivity|discriminate]. }
  destruct (is_set up) eqn:Hb; simpl.
  { exists 0%Q. split; [reflexivity|]. split; [discriminate|].
    split; [reflexivity|discriminate]. }
  destruct (min_delay (set_after wait_on) (set_after up)) as [d|] eqn:Hd.
  - destruct (ceiling_cases d) as [Hc1 Hc2].
    exists (if Qle_bool d 10 then d else 10%Q).
    split; [now destruct (Qle_bool d 10)|].
    split; [exact Hc1|].
    split; [intros [?|?]; discriminate|].
    intros _ _. split; [reflexivity|].
    unfold min_delay in Hd. split.
    + intros x Hx. rewrite Hx in Hd.
      destruct (set_after up) as [y|]; injection Hd as <-; [|exact Hc2].
      eapply Qle_trans; [exact Hc2|apply Q.le_min_l].
    + intros y Hy. rewrite Hy in Hd.
      destruct (set_after wait_on) as [x|]; injection Hd as <-; [|exact Hc2].
      eapply Qle_trans; [exact Hc2|apply Q.le_min_r].
  - exists 10%Q. split; [reflexivity|]. split; [apply Qle_refl|].
    split; [intros [?|?]; discriminate|].
    intros _ _. split; [reflexivity|].
    unfold min_delay in Hd. split.
    + intros x Hx. rewrite Hx in Hd. now destruct (set_after up).
    + intros y Hy. rewrite Hy in Hd. now destruct (set_after wait_on).
Qed.


(** ** More on the synchronisation *)

(** What a synchronisation leaves behind: the store as it was, or the
    store with the view replaced by one of the same name, read-only
    attribute and session flags, deleted if it was. *)
Lemma load_updates_shape selected mbx w :
  snd (_load_updates selected mbx w) = w
  \/ exists sel v v',
       selected = Some sel /\ views w !! sel = Some v
       /\ snd (_load_updates selected mbx w) = set_view sel v' w
       /\ sel_name v' = sel_name v
       /\ sel_readonly v' = sel_readonly v
       /\ sel_session_flags v' = sel_session_flags v
       /\ (sel_deleted v = true -> sel_deleted v' = true).
Proof.
  destruct selected as [sel|]; [|now left].
  destruct (views w !! sel) as [v|] eqn:Hv.
  2:{ left. unfold _load_updates, bind, get_view. now rewrite Hv. }
  destruct (decide (mbx = Some (sel_name v))) as [->|Hne].
  - destruct (mailboxes w !! sel_name v) as [m|] eqn:Hm.
    + right. exists sel, v, (synced v m).
      rewrite (load_updates_same _ _ _ _ Hv Hm).
      destruct (synced_fields v m) as (H1&H2&H3&H4).
      rewrite H1, H2, H3, H4. easy.
    + left. unfold _load_updates.
      rewrite (bind_return _ _ _ _ _ (get_view_run _ _ _ Hv)).
      rewrite bool_decide_eq_false_2 by (intros [?|?]; congruence).
      cbv [bind ret get_mbx]. now rewrite Hm.
  - right. exists sel, v.
    rewrite (load_updates_resolve sel v mbx w Hv)
      by (destruct mbx; [right|left]; congruence).
    destruct (mailboxes w !! sel_name v) as [m|].
    + exists (synced v m).
      destruct (synced_fields v m) as (H1&H2&H3&H4).
      rewrite H1, H2, H3, H4. easy.
    + exists (set_deleted v). easy.
Qed.

(** X1: whatever it is given, [_load_updates] changes no mailbox and
    no view but the one it synchronises, makes no view and drops none; of
    that view it keeps the name, the read-only attribute and the session
    flags, and it never clears the deleted marker. *)
Theorem load_updates_frame selected mbx w :
  mailboxes (snd (_load_updates selected mbx w)) = mailboxes w
  /\ next_uid_validity (snd (_load_updates selected mbx w))
     = next_uid_validity w
  /\ (forall r, views w !! r = None ->
        views (snd (_load_updates selected mbx w)) !! r = None)
  /\ (forall r v, views w !! r = Some v ->
        exists v',
          views (snd (_load_updates selected mbx w)) !! r = Some v'
          /\ sel_name v' = sel_name v
          /\ sel_readonly v' = sel_readonly v
          /\ sel_session_flags v' = sel_session_flags v
          /\ (sel_deleted v = true -> sel_deleted v' = true)
          /\ (selected <> Some r -> v' = v)).
Proof.
  destruct (load_updates_shape selected mbx w)
    as [->|(sel & v & v' & -> & Hv & -> & H1 & H2 & H3 & H4)].
  - repeat split; auto. intros r v Hr. exists v. easy.
  - repeat split.
    + intros r Hr. simpl. rewrite lookup_insert_ne; [exact Hr|]. congruence.
    + intros r v0 Hr. destruct (decide (sel = r)) as [<-|Hne].
      * exists v'. simpl. rewrite lookup_insert_eq.
        assert (v0 = v) as -> by congruence. easy.
      * exists v0. simpl. rewrite lookup_insert_ne by exact Hne.
        repeat split; auto.
Qed.

Lemma feed_lookup its : forall v u,
  sel_messages (feed v its) !! u
  = match last_flags its u with
    | Some flags => Some flags
    | None => sel_messages v !! u
    end.
Proof.
  induction its as [|[uid msg] its IH]; intros v u; simpl; [reflexivity|].
  rewrite IH. destruct (last_flags its u); [reflexivity|]. simpl.
  destruct (decide (uid = u)) as [->|Hne].
  - apply lookup_insert_eq.
  - now apply lookup_insert_ne.
Qed.





(** A synchronisation of a view whose mailbox exists, whatever the handle. *)
Lemma load_updates_live sel v m mbx w :
  views w !! sel = Some v ->
  mailboxes w !! sel_name v = Some m ->
  _load_updates (Some sel) mbx w
  = (Return (Some sel), set_view sel (synced v m) w).
Proof.
  intros Hv Hm. destruct (decide (mbx = Some (sel_name v))) as [->|Hne].
  - apply (load_updates_same _ _ _ _ Hv Hm).
  - rewrite (load_updates_resolve sel v mbx w Hv)
      by (destruct mbx; [right|left]; congruence).
    now rewrite Hm.
Qed.


Lemma feed_twice its v : feed (feed v its) its = feed v its.
Proof.
  destruct (feed_fields (feed v its) its) as (H1&H2&H3&H4&H5).
  assert (Hmsgs : sel_messages (feed (feed v its) its)
                  = sel_messages (feed v its)).
  { apply map_eq. intros u. rewrite feed_lookup.
    destruct (last_flags its u) as [flags|] eqn:Hl; [|reflexivity].
    rewrite feed_lookup. now rewrite Hl. }
  destruct (feed (feed v its) its), (feed v its). simpl in *. congruence.
Qed.

Lemma synced_twice v m : synced (synced v m) m = synced v m.
Proof.
  unfold synced.
  set (its := (fun msg => (msg_uid msg, msg)) <$> mbx_messages m).
  set (v0 := set_uid_validity (mbx_uid_validity m) v).
  assert (Heq : set_uid_validity (mbx_uid_validity m) (feed v0 its)
                = feed v0 its).
  { destruct (feed_fields v0 its) as (_&_&H3&_).
    destruct (feed v0 its). simpl in *. subst v0. simpl in H3.
    unfold set_uid_validity. simpl. now rewrite H3. }
  rewrite Heq. apply feed_twice.
Qed.

(** X3: synchronising twice is synchronising once. *)
Theorem load_updates_idempotent selected mbx w :
  _load_updates selected mbx (snd (_load_updates selected mbx w))
  = _load_updates selected mbx w.
Proof.
  destruct selected as [sel|]; [|reflexivity].
  destruct (views w !! sel) as [v|] eqn:Hv.
  2:{ assert (Hraise : _load_updates (Some sel) mbx w
                       = (Raise InvalidReference, w)).
      { unfold _load_updates, bind, get_view. now rewrite Hv. }
      now rewrite Hraise. }
  destruct (mailboxes w !! sel_name v) as [m|] eqn:Hm.
  - rewrite (load_updates_live _ _ _ mbx _ Hv Hm). cbn [snd].
    destruct (synced_fields v m) as (Hname&_).
    assert (Hm' : mailboxes (set_view sel (synced v m) w)
                    !! sel_name (synced v m) = Some m) by now rewrite Hname.
    rewrite (load_updates_live _ _ _ mbx _ (views_set_view _ _ _) Hm').
    now rewrite synced_twice, set_view_twice.
  - destruct (decide (mbx = Some (sel_name v))) as [->|Hne].
    + assert (Hraise : _load_updates (Some sel) (Some (sel_name v)) w
                       = (Raise InvalidReference, w)).
      { unfold _load_updates.
        rewrite (bind_return _ _ _ _ _ (get_view_run _ _ _ Hv)).
        rewrite bool_decide_eq_false_2 by (intros [?|?]; congruence).
        cbv [bind ret get_mbx]. now rewrite Hm. }
      now rewrite Hraise.
    + assert (Hmbx : mbx = None \/ mbx <> Some (sel_name v))
        by (destruct mbx; [right|left]; congruence).
      rewrite (load_updates_resolve sel v mbx w Hv Hmbx), Hm. cbn [snd].
      rewrite (load_updates_resolve sel (set_deleted v) mbx _
                 (views_set_view _ _ _) Hmbx).
      cbn [sel_name set_deleted set_view mailboxes]. rewrite Hm.
      now rewrite set_view_twice.
Qed.


(** ** Names that do not resolve, destinations that are read-only *)

(** X4: every operation resolves its mailbox before anything else.  On a
    name that does not resolve, Select and the session's [get_mailbox], and
    on a view whose mailbox is gone Search and, the view being writable,
    Expunge and Update-Flags, raise [MailboxNotFound] and leave the store as
    it was: no view is made, none is marked deleted. *)
Theorem missing_mailbox_raises :
  (forall name readonly selected w,
     mailboxes w !! name = None ->
     select_mailbox name readonly w = (Raise (MailboxNotFound name), w)
     /\ session_get_mailbox name selected w = (Raise (MailboxNotFound name), w))
  /\ (forall selected v keys uid_set sequence_set flag_set mode w,
        views w !! selected = Some v ->
        mailboxes w !! sel_name v = None ->
        search_mailbox selected keys w
        = (Raise (MailboxNotFound (sel_name v)), w)
        /\ (sel_readonly v = false ->
            expunge_mailbox selected uid_set w
            = (Raise (MailboxNotFound (sel_name v)), w)
            /\ update_flags selected sequence_set flag_set mode w
               = (Raise (MailboxNotFound (sel_name v)), w))).
Proof.
  split.
  - intros name readonly selected w Hm. split.
    + unfold select_mailbox.
      now rewrite (bind_raise _ _ _ _ _ (get_mailbox_missing _ _ Hm)).
    + unfold session_get_mailbox.
      now rewrite (bind_raise _ _ _ _ _ (get_mailbox_missing _ _ Hm)).
  - intros selected v keys uid_set sequence_set flag_set mode w Hv Hm.
    split; [|intros Hrw; split].
    + unfold search_mailbox.
      rewrite (bind_return _ _ _ _ _ (get_view_run _ _ _ Hv)).
      now rewrite (bind_raise _ _ _ _ _ (get_mailbox_missing _ _ Hm)).
    + unfold expunge_mailbox.
      rewrite (bind_return _ _ _ _ _ (get_view_run _ _ _ Hv)), Hrw.
      now rewrite (bind_raise _ _ _ _ _ (get_mailbox_missing _ _ Hm)).
    + unfold update_flags.
      rewrite (bind_return _ _ _ _ _ (get_view_run _ _ _ Hv)), Hrw.
      now rewrite (bind_raise _ _ _ _ _ (get_mailbox_missing _ _ Hm)).
Qed.

(** X5: a destination that is a read-only mailbox rejects Append and Copy
    with [MailboxReadOnly]: nothing is stored, no change signal is set and
    the caller's view is not synchronised.  Copy asks nothing of the
    caller's view but that its mailbox resolves: the view may be read-only. *)
Theorem readonly_destination_rejects :
  (forall name msgs selected m w,
     mailboxes w !! name = Some m ->
     mbx_readonly m = true ->
     append_messages name msgs selected w = (Raise (MailboxReadOnly name), w))
  /\ (forall selected sequence_set mailbox v src m w,
        views w !! selected = Some v ->
        mailboxes w !! sel_name v = Some src ->
        mailboxes w !! mailbox = Some m ->
        mbx_readonly m = true ->
        copy_messages selected sequence_set mailbox w
        = (Raise (MailboxReadOnly mailbox), w)).
Proof.
  split.
  - intros name msgs selected m w Hm Hro. unfold append_messages.
    rewrite (bind_return _ _ _ _ _ (get_mailbox_found _ true _ _ Hm)).
    rewrite (bind_return _ _ _ _ _ (get_mbx_run _ _ _ Hm)).
    now rewrite Hro.
  - intros selected sequence_set mailbox v src m w Hv Hsrc Hm Hro.
    unfold copy_messages.
    rewrite (bind_return _ _ _ _ _ (get_view_run _ _ _ Hv)).
    rewrite (bind_return _ _ _ _ _ (get_mailbox_found _ false _ _ Hsrc)).
    rewrite (bind_return _ _ _ _ _ (get_mailbox_found _ true _ _ Hm)).
    rewrite (bind_return _ _ _ _ _ (get_mbx_run _ _ _ Hm)).
    now rewrite Hro.
Qed.

(** ** Expunge *)

Lemma filter_not_elem_of_nil (msgs : list KeyValMessage) :
  filter (fun msg => msg_uid msg ∉ @nil Z) msgs = msgs.
Proof.
  induction msgs as [|msg msgs IH]; [reflexivity|].
  rewrite filter_cons_True by apply not_elem_of_nil. now rewrite IH.
Qed.

Lemma delete_all_run h uids : forall m w,
  mailboxes w !! h = Some m ->
  delete_all h uids w
  = (Return tt,
     set_mbx h (with_messages (filter (fun msg => msg_uid msg ∉ uids)) m) w).
Proof.
  induction uids as [|u uids IH]; intros m w Hm; simpl.
  - unfold ret. rewrite <- (set_mbx_id _ _ _ Hm) at 1. do 2 f_equal.
    destruct m. unfold with_messages. simpl. f_equal.
    symmetry. apply filter_not_elem_of_nil.
  - unfold delete_msg.
    rewrite (bind_return _ _ _ _ _ (update_mbx_run _ _ _ _ Hm)).
    rewrite (IH _ _ (mailboxes_set_mbx _ _ _)).
    rewrite set_mbx_twice. do 2 f_equal.
    unfold with_messages. simpl. f_equal.
    rewrite list_filter_filter. apply list_filter_iff.
    intros msg. rewrite not_elem_of_cons. split; intros [? ?]; split; auto.
Qed.


Lemma uid_determines msgs : forall a b : KeyValMessage,
  NoDup (msg_uid <$> msgs) ->
  a ∈ msgs -> b ∈ msgs -> msg_uid a = msg_uid b -> a = b.
Proof.
  induction msgs as [|m0 msgs IH]; intros a b Hnd Ha Hb Heq; [inversion Ha|].
  rewrite fmap_cons in Hnd. apply NoDup_cons in Hnd as [Hnotin Hnd].
  apply elem_of_cons in Ha as [->|Ha]; apply elem_of_cons in Hb as [->|Hb].
  - reflexivity.
  - exfalso. apply Hnotin. rewrite Heq. apply list_elem_of_fmap. eauto.
  - exfalso. apply Hnotin. rewrite <- Heq. apply list_elem_of_fmap. eauto.
  - now apply IH.
Qed.

Lemma session_recent_set_view_same r v v' w :
  views w !! r = Some v ->
  sel_session_flags v' = sel_session_flags v ->
  forall r', session_recent (set_view r v' w) r' = session_recent w r'.
Proof.
  intros Hv Hsf r'. unfold session_recent. simpl.
  destruct (decide (r = r')) as [<-|Hne].
  - rewrite lookup_insert_eq, Hv. simpl. now rewrite Hsf.
  - now rewrite lookup_insert_ne.
Qed.

(** X6: Expunge through a writable view of a mailbox that exists removes
    from the store the messages whose UID is that of a matched message that
    bears [\Deleted], and no other; the messages left keep their order.  The
    selector defaults to all UIDs.  The change signal is set, also when
    nothing was removed, and no session's recency changes.  Where the
    matches are messages of the mailbox and the UIDs are distinct, no
    message without [\Deleted] is removed. *)
Theorem expunge_removes_deleted selected v m uid_set w :
  views w !! selected = Some v ->
  sel_readonly v = false ->
  mailboxes w !! sel_name v = Some m ->
  exists doomed w' m',
    doomed = msg_uid <$>
               filter (fun msg => Deleted ∈ msg_permanent_flags msg)
                 (snd <$> find_in (default SequenceSet_all_uid uid_set) v m)
    /\ expunge_mailbox selected uid_set w = (Return (Some selected), w')
    /\ mailboxes w' = <[sel_name v := m']> (mailboxes w)
    /\ mbx_messages m'
       = filter (fun msg => msg_uid msg ∉ doomed) (mbx_messages m)
    /\ is_set (updated (selected_set m')) = true
    /\ (forall r, session_recent w' r = session_recent w r)
    /\ ((forall sm, sm ∈ find_in (default SequenceSet_all_uid uid_set) v m ->
           sm.2 ∈ mbx_messages m) ->
        NoDup (msg_uid <$> mbx_messages m) ->
        forall msg, msg ∈ mbx_messages m ->
          Deleted ∉ msg_permanent_flags msg -> msg ∈ mbx_messages m').
Proof.
  intros Hv Hrw Hm.
  set (found := find_in (default SequenceSet_all_uid uid_set) v m).
  set (doomed := msg_uid <$>
                   filter (fun msg => Deleted ∈ msg_permanent_flags msg)
                     (snd <$> found)).
  set (m1 := with_messages (filter (fun msg => msg_uid msg ∉ doomed)) m).
  exists doomed, (set_view selected (synced v (signal m1))
                    (set_mbx (sel_name v) (signal m1) w)), (signal m1).
  split; [reflexivity|]. split.
  { unfold expunge_mailbox.
    rewrite (bind_return _ _ _ _ _ (get_view_run _ _ _ Hv)), Hrw.
    rewrite (bind_return _ _ _ _ _ (get_mailbox_found _ false _ _ Hm)).
    rewrite (bind_return _ _ _ _ _ (find_run _ _ _ _ _ _ Hm Hv)).
    fold found. fold doomed.
    rewrite (bind_return _ _ _ _ _ (delete_all_run _ doomed _ _ Hm)).
    fold m1.
    rewrite (bind_return _ _ _ _ _
               (set_updated_run _ _ _ (mailboxes_set_mbx _ m1 w))).
    rewrite set_mbx_twice.
    apply (load_updates_same selected v (signal m1)
             (set_mbx (sel_name v) (signal m1) w) Hv).
    apply mailboxes_set_mbx. }
  split; [reflexivity|]. split; [reflexivity|]. split; [reflexivity|].
  split.
  { intros r.
    rewrite (session_recent_set_view_same selected v (synced v (signal m1))
               (set_mbx (sel_name v) (signal m1) w) Hv); [reflexivity|].
    now destruct (synced_fields v (signal m1)) as (_&_&_&->). }
  intros Hstored Hnd msg Hin Hflag. simpl.
  apply list_elem_of_filter. split; [|exact Hin].
  intros Hdoomed. unfold doomed in Hdoomed.
  apply list_elem_of_fmap in Hdoomed as (d & Huid & Hd).
  apply list_elem_of_filter in Hd as [Hdel Hd].
  apply list_elem_of_fmap in Hd as (sm & -> & Hsm).
  assert (msg = sm.2) as ->
    by (apply (uid_determines _ _ _ Hnd Hin (Hstored _ Hsm) Huid)).
  contradiction.
Qed.


(** ** Update-Flags *)







(** ** What Append and Copy store *)

Lemma stamped_keeps uid recent msgs :
  length (stamped uid recent msgs) = length msgs
  /\ msg_permanent_flags <$> stamped uid recent msgs
     = msg_permanent_flags <$> msgs
  /\ msg_contents <$> stamped uid recent msgs = msg_contents <$> msgs.
Proof.
  revert uid. induction msgs as [|msg msgs IH]; intros uid; [easy|].
  destruct (IH (uid + 1)) as (H1&H2&H3).
  cbn [stamped length]. rewrite !fmap_cons, H1, H2, H3. easy.
Qed.



(** The mailboxes after [copy_messages], from the resolution of the
    destination on. *)
Lemma copy_store selected sequence_set mailbox v src w w1 m dest :
  views w !! selected = Some v ->
  is_Some (mailboxes w !! sel_name v) ->
  get_mailbox mailbox true w = (Return mailbox, w1) ->
  views w1 = views w ->
  mailboxes w1 !! sel_name v = Some src ->
  mailboxes w1 !! mailbox = Some m ->
  mbx_readonly m = false ->
  _find_selected (Some selected) mailbox w1 = (Return dest, w1) ->
  (forall d, dest = Some d -> is_Some (views w1 !! d)) ->
  let recent := negb (bool_decide (is_Some dest)) in
  let found := find_in sequence_set v src in
  let new := stamped (mbx_next_uid m) recent (snd <$> found) in
  exists w',
    copy_messages selected sequence_set mailbox w
    = (Return ((mbx_uid_validity m,
                zip (msg_uid <$> (snd <$> found)) (msg_uid <$> new)),
               Some selected), w')
    /\ mailboxes w'
       = <[mailbox := signal (add_all recent m (snd <$> found))]>
           (mailboxes w1).
Proof.
  intros Hv [src0 Hsrc0] Hget Hviews Hsrc Hm Hrw Hfind Hdest recent found new.
  assert (Hv1 : views w1 !! selected = Some v) by now rewrite Hviews.
  unfold copy_messages.
  rewrite (bind_return _ _ _ _ _ (get_view_run _ _ _ Hv)).
  rewrite (bind_return _ _ _ _ _ (get_mailbox_found _ false _ _ Hsrc0)).
  rewrite (bind_return _ _ _ _ _ Hget).
  rewrite (bind_return _ _ _ _ _ (get_mbx_run _ _ _ Hm)).
  rewrite Hrw.
  rewrite (bind_return _ _ _ _ _ Hfind).
  rewrite (bind_return _ _ _ _ _ (find_run _ sequence_set _ _ _ _ Hsrc Hv1)).
  fold found.
  rewrite (bind_return _ _ _ _ _
             (copy_loop_run mailbox dest found [] m w1 Hm Hdest)).
  fold recent. fold new. simpl app.
  set (m1 := add_all recent m (snd <$> found)).
  rewrite (bind_return _ _ _ _ _
             (set_updated_run _ _ _ (mailboxes_set_mbx _ m1 _))).
  rewrite set_mbx_twice.
  set (w3 := set_mbx mailbox (signal m1) (marked dest (msg_uid <$> new) w1)).
  assert (Hm3 : mailboxes w3 !! mailbox = Some (signal m1))
    by apply mailboxes_set_mbx.
  rewrite (bind_return _ _ _ _ _ (get_mbx_run _ _ _ Hm3)).
  destruct (load_updates_keeps (Some selected) (Some (sel_name v)) w3)
    as (w' & Hrun & Hmb & _).
  { intros sel [= <-]. apply (marked_live dest (msg_uid <$> new) w1 selected).
    eauto. }
  { intros h [= <-]. subst w3. simpl. rewrite mailboxes_marked.
    destruct (decide (mailbox = sel_name v)) as [->|Hne].
    - rewrite lookup_insert_eq. eauto.
    - rewrite lookup_insert_ne by exact Hne. eauto. }
  rewrite (bind_return _ _ _ _ _ Hrun).
  exists w'. split; [reflexivity|]. rewrite Hmb. subst w3. simpl.
  now rewrite mailboxes_marked.
Qed.

(** X9: Copy into another, writable mailbox that exists puts one message
    per match at the end of the destination, with the flags and the
    contents of the matched message, and returns for each match, in their
    order, its UID paired with the UID of its copy, with the destination's
    uidValidity.  The source and every mailbox but the destination are left
    as they were, and the destination's change signal is set. *)
Theorem copy_store_effect selected sequence_set mailbox v src m w :
  views w !! selected = Some v ->
  mailboxes w !! sel_name v = Some src ->
  mailboxes w !! mailbox = Some m ->
  sel_name v <> mailbox ->
  mbx_readonly m = false ->
  (forall r, r ∈ registered (selected_set m) -> is_Some (views w !! r)) ->
  exists new w' m',
    copy_messages selected sequence_set mailbox w
    = (Return ((mbx_uid_validity m,
                zip (msg_uid <$> (snd <$> find_in sequence_set v src))
                  (msg_uid <$> new)),
               Some selected), w')
    /\ mailboxes w' = <[mailbox := m']> (mailboxes w)
    /\ mailboxes w' !! sel_name v = Some src
    /\ mbx_messages m' = mbx_messages m ++ new
    /\ length new = length (find_in sequence_set v src)
    /\ msg_permanent_flags <$> new
       = msg_permanent_flags <$> (snd <$> find_in sequence_set v src)
    /\ msg_contents <$> new
       = msg_contents <$> (snd <$> find_in sequence_set v src)
    /\ is_set (updated (selected_set m')) = true.
Proof.
  intros Hv Hsrc Hm Hne Hrw Hreg.
  assert (Hsel : forall sel, Some selected = Some sel ->
                   is_Some (views w !! sel)) by (intros sel [= <-]; eauto).
  destruct (find_selected_total (Some selected) mailbox m w Hm Hsel Hreg)
    as (dest & Hfind & Hdest).
  destruct (copy_store selected sequence_set mailbox v src w w m dest
              Hv (ex_intro _ src Hsrc) (get_mailbox_found _ true _ _ Hm)
              eq_refl Hsrc Hm Hrw Hfind Hdest) as (w' & Hrun & Hmb).
  set (recent := negb (bool_decide (is_Some dest))) in *.
  destruct (stamped_keeps (mbx_next_uid m) recent
              (snd <$> find_in sequence_set v src))
    as (Hlen & Hflags & Hcontents).
  eexists _, w', _. split; [exact Hrun|]. split; [exact Hmb|].
  split; [rewrite Hmb, lookup_insert_ne; [exact Hsrc|congruence]|].
  split; [reflexivity|].
  split; [now rewrite Hlen, length_fmap|].
  split; [exact Hflags|]. split; [exact Hcontents|]. reflexivity.
Qed.


(** ** More on Select *)

Lemma recent_uids_none msgs :
  (forall msg, msg ∈ msgs -> msg_recent msg = false) -> recent_uids msgs = ∅.
Proof.
  intros Hnone. unfold recent_uids.
  assert (Hnil : filter (fun msg => msg_recent msg = true) msgs = []).
  { induction msgs as [|msg msgs IH]; [reflexivity|].
    rewrite filter_cons_False.
    - apply IH. intros x Hx. apply Hnone. now right.
    - rewrite (Hnone msg) by now left. discriminate. }
  now rewrite Hnil.
Qed.

(** X10: a Select that makes a read-only view, asked for or of a read-only
    mailbox, claims no recency: the messages of the store are left as they
    were, their recent markers with them, the view's session flags hold no
    recent UID, and no other mailbox changes. *)
Theorem select_readonly_claims_nothing name readonly m w :
  mailboxes w !! name = Some m ->
  readonly || mbx_readonly m = true ->
  exists snap w' m' v',
    select_mailbox name readonly w
    = (Return (snap, Some (fresh (dom (views w)))), w')
    /\ mailboxes w' = <[name := m']> (mailboxes w)
    /\ mbx_messages m' = mbx_messages m
    /\ views w' !! fresh (dom (views w)) = Some v'
    /\ sel_readonly v' = true
    /\ sf_recent (sel_session_flags v') = ∅
    /\ (forall r, r <> fresh (dom (views w)) ->
          views w' !! r = views w !! r).
Proof.
  intros Hm Hro.
  pose proof (select_run name readonly m w Hm) as Hrun.
  simpl in Hrun. rewrite Hro in Hrun.
  set (sel := fresh (dom (views w))) in *.
  set (v1 := new_selected name true) in *.
  set (m2 := register sel m) in *.
  exists (snapshot_of m2), (set_view sel (synced v1 m2) (set_mbx name m2 w)),
    m2, (synced v1 m2).
  split; [exact Hrun|]. split; [reflexivity|]. split; [reflexivity|].
  split; [apply views_set_view|].
  destruct (synced_fields v1 m2) as (_&H2&_&H4).
  split; [now rewrite H2|]. split; [now rewrite H4|].
  intros r Hr. simpl. now rewrite lookup_insert_ne.
Qed.

(** X11: the first Select wins.  After a writable Select of a mailbox, a
    second Select of it, read-only or not, makes another view, which gets no
    recent UID; the first view keeps those it claimed. *)
Theorem second_select_claims_nothing name readonly m w :
  mailboxes w !! name = Some m ->
  mbx_readonly m = false ->
  exists snap first second w' v',
    first = fresh (dom (views w))
    /\ select_mailbox name readonly (snd (select_mailbox name false w))
       = (Return (snap, Some second), w')
    /\ second <> first
    /\ views w' !! second = Some v'
    /\ sf_recent (sel_session_flags v') = ∅
    /\ session_recent w' first = Some (recent_uids (mbx_messages m)).
Proof.
  intros Hm Hrw.
  pose proof (select_run name false m w Hm) as Hrun1.
  rewrite Hrw in Hrun1. simpl in Hrun1.
  set (first := fresh (dom (views w))) in *.
  set (m1 := with_messages (fun st => saved st (claimed st))
               (register first m)) in *.
  set (v1 := claim_view (new_selected name false) (mbx_messages m)) in *.
  set (w1 := set_view first (synced v1 m1) (set_mbx name m1 w)) in *.
  rewrite Hrun1. cbn [snd].
  assert (Hm1 : mailboxes w1 !! name = Some m1) by apply mailboxes_set_mbx.
  pose proof (select_run name readonly m1 w1 Hm1) as Hrun2. simpl in Hrun2.
  set (second := fresh (dom (views w1))) in *.
  set (ro := readonly || mbx_readonly m1) in *.
  set (v2 := if ro then new_selected name ro
             else claim_view (new_selected name ro) (mbx_messages m1)) in *.
  set (m2 := if ro then register second m1
             else with_messages (fun st => saved st (claimed st))
                    (register second m1)) in *.
  assert (Hclear : forall msg, msg ∈ mbx_messages m1 -> msg_recent msg = false).
  { intros msg Hin. apply (saved_claimed_clear (mbx_messages m)). exact Hin. }
  assert (Hne : second <> first).
  { intros Heq. assert (Hin : first ∈ dom (views w1)).
    { apply elem_of_dom. exists (synced v1 m1). apply views_set_view. }
    rewrite <- Heq in Hin. exact (is_fresh _ Hin). }
  exists (snapshot_of m2), first, second,
    (set_view second (synced v2 m2) (set_mbx name m2 w1)), (synced v2 m2).
  split; [reflexivity|]. split; [exact Hrun2|]. split; [exact Hne|].
  split; [apply views_set_view|]. split.
  - destruct (synced_fields v2 m2) as (_&_&_&->). unfold v2.
    destruct ro; [reflexivity|].
    destruct (claim_view_fields (new_selected name false) (mbx_messages m1))
      as (_&_&->).
    rewrite (recent_uids_none _ Hclear). simpl. apply (left_id_L ∅ (∪)).
  - unfold session_recent. simpl.
    rewrite lookup_insert_ne by exact Hne. rewrite lookup_insert_eq. simpl.
    destruct (synced_fields v1 m1) as (_&_&_&->). unfold v1.
    destruct (claim_view_fields (new_selected name false) (mbx_messages m))
      as (_&_&->). simpl. f_equal. apply (right_id_L ∅ (∪)).
Qed.



(** ** Search *)

Lemma asyncenumerate_elem {A} (l : list A) : forall s n x,
  (n, x) ∈ asyncenumerate l s
  <-> s <= n /\ l !! Z.to_nat (n - s) = Some x.
Proof.
  induction l as [|a l IH]; intros s n x; simpl.
  - split; [intros H; inversion H|intros [_ H]; discriminate H].
  - rewrite elem_of_cons, IH. split.
    + intros [[= -> ->]|[Hle Hl]].
      * split; [lia|]. now replace (s - s) with 0 by lia.
      * split; [lia|].
        replace (Z.to_nat (n - s)) with (S (Z.to_nat (n - (s + 1)))) by lia.
        exact Hl.
    + intros [Hle Hl]. destruct (decide (n = s)) as [->|Hne].
      * left. replace (s - s) with 0 in Hl by lia. simpl in Hl. congruence.
      * right. split; [lia|].
        replace (Z.to_nat (n - s)) with (S (Z.to_nat (n - (s + 1)))) in Hl
          by lia.
        exact Hl.
Qed.

Lemma filter_asyncenumerate_sorted {A} (f : Z * A -> bool) (l : list A) :
  forall s,
    StronglySorted Z.lt (fst <$> List.filter f (asyncenumerate l s))
    /\ Forall (fun n => s <= n) (fst <$> List.filter f (asyncenumerate l s)).
Proof.
  induction l as [|a l IH]; intros s; simpl.
  - split; constructor.
  - destruct (IH (s + 1)) as [Hsorted Hfrom].
    assert (Hweak : Forall (fun n => s <= n)
                      (fst <$> List.filter f (asyncenumerate l (s + 1)))).
    { eapply Forall_impl; [exact Hfrom|]. intros n Hn. simpl in Hn. lia. }
    destruct (f (s, a)); [|easy].
    rewrite fmap_cons. split.
    + constructor; [exact Hsorted|].
      eapply Forall_impl; [exact Hfrom|]. intros n Hn. simpl in *. lia.
    + constructor; [simpl; lia|exact Hweak].
Qed.

(** X13: Search through a view of a mailbox that exists returns the
    messages of the store that the criteria match, each with its sequence
    number, the position in the store counted from 1: every such message is
    returned, once, and the results come by ascending sequence number.  The
    criteria are set against the view as it is before it is synchronised.
    Search changes no mailbox and no session's recency. *)
Theorem search_results selected v m keys w :
  views w !! selected = Some v ->
  mailboxes w !! sel_name v = Some m ->
  exists found w',
    search_mailbox selected keys w = (Return (found, Some selected), w')
    /\ (forall seq msg,
          (seq, msg) ∈ found
          <-> 1 <= seq
              /\ mbx_messages m !! Z.to_nat (seq - 1) = Some msg
              /\ matches keys v seq msg = true)
    /\ StronglySorted Z.lt (fst <$> found)
    /\ mailboxes w' = mailboxes w
    /\ (forall r, session_recent w' r = session_recent w r).
Proof.
  intros Hv Hm.
  set (found := List.filter (fun sm => matches keys v sm.1 sm.2)
                  (asyncenumerate (mbx_messages m) 1)).
  exists found, (set_view selected (synced v m) w).
  split.
  { unfold search_mailbox.
    rewrite (bind_return _ _ _ _ _ (get_view_run _ _ _ Hv)).
    rewrite (bind_return _ _ _ _ _ (get_mailbox_found _ false _ _ Hm)).
    unfold messages.
    rewrite (bind_return _ _ _ _ _
               (bind_return _ _ _ _ _ (get_mbx_run _ _ _ Hm))).
    now rewrite (bind_return _ _ _ _ _ (load_updates_same _ _ _ _ Hv Hm)). }
  split.
  { intros seq msg. unfold found.
    rewrite list_elem_of_In, filter_In, <- list_elem_of_In.
    rewrite asyncenumerate_elem. simpl. split.
    - intros [[? ?] ?]. easy.
    - intros (?&?&?). easy. }
  split; [apply filter_asyncenumerate_sorted|].
  split; [reflexivity|].
  apply (session_recent_set_view_same _ _ _ _ Hv).
  now destruct (synced_fields v m) as (_&_&_&->).
Qed.

(** ** Listing, and the operations on the tree of mailboxes *)

Lemma bind_ret {A B} (a : A) (k : A -> M B) w : bind (ret a) k w = k a w.
Proof. reflexivity. Qed.

(** X14: with an empty filter the listing is the single root entry, of no
    name, with the session's delimiter and the attribute Noselect, whether
    the subscribed mailboxes were asked for or not: the store is not asked
    for any name.  The caller's view is synchronised without a handle: it
    is marked deleted when its mailbox is gone, and no mailbox changes. *)
Theorem list_mailboxes_empty_filter ref_name subscribed :
  (forall w,
     list_mailboxes ref_name "" subscribed None w
     = (Return ([("", Some delimiter, ["Noselect"])], None), w))
  /\ (forall sel v w,
        views w !! sel = Some v ->
        exists w',
          list_mailboxes ref_name "" subscribed (Some sel) w
          = (Return ([("", Some delimiter, ["Noselect"])], Some sel), w')
          /\ mailboxes w' = mailboxes w
          /\ (mailboxes w !! sel_name v = None ->
              w' = set_view sel (set_deleted v) w)).
Proof.
  split; [reflexivity|].
  intros sel v w Hv.
  assert (Hnone : @None string = None \/ @None string <> Some (sel_name v))
    by now left.
  pose proof (load_updates_resolve sel v None w Hv Hnone) as Hload.
  exists (match mailboxes w !! sel_name v with
          | Some m => set_view sel (synced v m) w
          | None => set_view sel (set_deleted v) w
          end).
  split.
  - unfold list_mailboxes.
    rewrite bool_decide_eq_false_2 by (intros H; now apply H).
    rewrite bind_ret.
    destruct (mailboxes w !! sel_name v);
      now rewrite (bind_return _ _ _ _ _ Hload).
  - split.
    + now destruct (mailboxes w !! sel_name v).
    + now intros ->.
Qed.


(** X15: when the store has removed the mailbox of the caller's view, by
    [delete_mailbox] or by [rename_mailbox] to another name, the operation
    returns the view marked deleted: the view does not follow a rename.
    While the mailbox of the view is still there the view is synchronised
    against it.  When the store's operation raises, so does the session's,
    without a synchronisation. *)
Theorem removed_mailbox_marks_view :
  (forall name sel v w w1,
     views w !! sel = Some v ->
     inbox_remove_mailbox name w = (Return tt, w1) ->
     views w1 = views w ->
     (mailboxes w1 !! sel_name v = None ->
      delete_mailbox name (Some sel) w
      = (Return (Some sel), set_view sel (set_deleted v) w1))
     /\ (forall m, mailboxes w1 !! sel_name v = Some m ->
         delete_mailbox name (Some sel) w
         = (Return (Some sel), set_view sel (synced v m) w1)))
  /\ (forall before_name after_name sel v w w1,
        views w !! sel = Some v ->
        inbox_rename_mailbox before_name after_name w = (Return tt, w1) ->
        views w1 = views w ->
        mailboxes w1 !! sel_name v = None ->
        rename_mailbox before_name after_name (Some sel) w
        = (Return (Some sel), set_view sel (set_deleted v) w1))
  /\ (forall name before_name after_name selected e w w1,
        (inbox_add_mailbox name w = (Raise e, w1) ->
         create_mailbox name selected w = (Raise e, w1))
        /\ (inbox_remove_mailbox name w = (Raise e, w1) ->
            delete_mailbox name selected w = (Raise e, w1))
        /\ (inbox_rename_mailbox before_name after_name w = (Raise e, w1) ->
            rename_mailbox before_name after_name selected w = (Raise e, w1))).
Proof.
  assert (Hsync : forall sel v w1,
    views w1 !! sel = Some v ->
    _load_updates (Some sel) None w1
    = match mailboxes w1 !! sel_name v with
      | Some m => (Return (Some sel), set_view sel (synced v m) w1)
      | None => (Return (Some sel), set_view sel (set_deleted v) w1)
      end).
  { intros sel v w1 Hv. apply (load_updates_resolve sel v None w1 Hv).
    now left. }
  split; [|split].
  - intros name sel v w w1 Hv Hrm Hviews.
    assert (Hv1 : views w1 !! sel = Some v) by now rewrite Hviews.
    split.
    + intros Hgone. unfold delete_mailbox.
      rewrite (bind_return _ _ _ _ _ Hrm), (Hsync _ _ _ Hv1). now rewrite Hgone.
    + intros m Hm. unfold delete_mailbox.
      rewrite (bind_return _ _ _ _ _ Hrm), (Hsync _ _ _ Hv1). now rewrite Hm.
  - intros before_name after_name sel v w w1 Hv Hrn Hviews Hgone.
    assert (Hv1 : views w1 !! sel = Some v) by now rewrite Hviews.
    unfold rename_mailbox.
    rewrite (bind_return _ _ _ _ _ Hrn), (Hsync _ _ _ Hv1). now rewrite Hgone.
  - intros name before_name after_name selected e w w1. repeat split.
    + intros H. unfold create_mailbox. now rewrite (bind_raise _ _ _ _ _ H).
    + intros H. unfold delete_mailbox. now rewrite (bind_raise _ _ _ _ _ H).
    + intros H. unfold rename_mailbox. now rewrite (bind_raise _ _ _ _ _ H).
Qed.

(** X16: the session's [get_mailbox] of a mailbox that exists returns its
    summary and the caller's view, synchronised against the view's own
    mailbox, not the named one.  It changes no mailbox and no session's
    recency, and it succeeds with the view marked deleted when the view's
    mailbox is gone. *)
Theorem get_mailbox_reports name selected m w :
  mailboxes w !! name = Some m ->
  (forall sel, selected = Some sel -> is_Some (views w !! sel)) ->
  exists w',
    session_get_mailbox name selected w
    = (Return (snapshot_of m, selected), w')
    /\ mailboxes w' = mailboxes w
    /\ (forall r, session_recent w' r = session_recent w r)
    /\ (forall sel v, selected = Some sel -> views w !! sel = Some v ->
          (forall own, mailboxes w !! sel_name v = Some own ->
             w' = set_view sel (synced v own) w)
          /\ (mailboxes w !! sel_name v = None ->
              w' = set_view sel (set_deleted v) w)).
Proof.
  intros Hm Hsel.
  assert (Hstart : session_get_mailbox name selected w
                   = (sel <- _load_updates selected (Some name) ;;
                      ret (snapshot_of m, sel)) w).
  { unfold session_get_mailbox.
    rewrite (bind_return _ _ _ _ _ (get_mailbox_found _ false _ _ Hm)).
    unfold snapshot.
    now rewrite (bind_return _ _ _ _ _
                   (bind_return _ _ _ _ _ (get_mbx_run _ _ _ Hm))). }
  destruct (load_updates_keeps selected (Some name) w Hsel)
    as (w' & Hrun & Hmb & Hrec).
  { intros h [= <-]. eauto. }
  exists w'. rewrite Hstart, (bind_return _ _ _ _ _ Hrun).
  split; [reflexivity|]. split; [exact Hmb|]. split; [exact Hrec|].
  intros sel v -> Hv. split.
  - intros own Hown.
    rewrite (load_updates_live _ _ _ (Some name) _ Hv Hown) in Hrun.
    congruence.
  - intros Hgone.
    rewrite (load_updates_resolve sel v (Some name) w Hv) in Hrun
      by (right; congruence).
    rewrite Hgone in Hrun. congruence.
Qed.


(** ** Check and Fetch, when the mailbox is there *)



(** X19: Fetch through a read-only view, or of attributes none of which
    sets seen, returns the matches as the store holds them, with the view
    synchronised; it changes no mailbox and no session's recency. *)
Theorem fetch_without_seen selected v m sequence_set attributes w :
  views w !! selected = Some v ->
  mailboxes w !! sel_name v = Some m ->
  sel_readonly v = true \/ existsb set_seen attributes = false ->
  fetch_messages selected sequence_set attributes w
  = (Return (find_in sequence_set v m, Some selected),
     set_view selected (synced v m) w)
  /\ mailboxes (set_view selected (synced v m) w) = mailboxes w
  /\ (forall r, session_recent (set_view selected (synced v m) w) r
                = session_recent w r).
Proof.
  intros Hv Hm Hno. split; [|split; [reflexivity|]].
  - unfold fetch_messages.
    rewrite (bind_return _ _ _ _ _ (get_view_run _ _ _ Hv)).
    rewrite (bind_return _ _ _ _ _ (get_mailbox_found _ false _ _ Hm)).
    rewrite (bind_return _ _ _ _ _ (find_run _ sequence_set _ _ _ _ Hm Hv)).
    assert (Hcond : negb (sel_readonly v) && existsb set_seen attributes = false).
    { destruct Hno as [->| ->]; [reflexivity|apply andb_false_r]. }
    rewrite Hcond, bind_ret.
    now rewrite (bind_return _ _ _ _ _ (load_updates_same _ _ _ _ Hv Hm)).
  - apply (session_recent_set_view_same _ _ _ _ Hv).
    now destruct (synced_fields v m) as (_&_&_&->).
Qed.

End KeyValSession.

(** ** The properties on the sample stores *)

Lemma load_updates_absent_or_not_found_witness :
  _load_updates (Some 0%nat) (Some "INBOX") Samples.orphaned
  = (Return (Some 0%nat),
     set_view 0 (set_deleted (Samples.view "A" false false 1)) Samples.orphaned).
Proof.
  apply (proj2 load_updates_absent_or_not_found 0%nat
           (Samples.view "A" false false 1) (Some "INBOX") Samples.orphaned).
  - reflexivity.
  - right. discriminate.
  - reflexivity.
Defined.


Lemma select_claims_recent_witness :
  exists snap w' m',
    select_mailbox "INBOX" false Samples.unselected
    = (Return (snap, Some (fresh (dom (views Samples.unselected)))), w')
    /\ mailboxes w' !! "INBOX" = Some m'
    /\ (forall msg, msg ∈ mbx_messages m' -> msg_recent msg = false)
    /\ session_recent w' (fresh (dom (views Samples.unselected)))
       = Some (recent_uids (mbx_messages Samples.inbox)).
Proof.
  destruct (select_claims_recent "INBOX" Samples.inbox Samples.unselected
              eq_refl eq_refl)
    as (snap & w' & m' & v' & Hrun & Hm' & Hv' & _ & _ & Hclear & Hrec & _).
  exists snap, w', m'. split; [exact Hrun|]. split; [exact Hm'|].
  split; [exact Hclear|]. unfold session_recent. rewrite Hv'. simpl.
  now rewrite Hrec.
Defined.

Lemma append_copy_recency_witness :
  exists w',
    append_messages Backend.AppendMessage Backend.parse_message
      "INBOX" [Samples.hello] (Some 0%nat) Samples.selected_inbox
    = (Return ((1, [3]), Some 0%nat), w')
    /\ session_recent w' 0%nat = Some ({[3]} ∪ ∅).
Proof.
  destruct (proj1 (proj2 (append_copy_recency Backend.SequenceSet
                            Backend.AppendMessage Backend.parse_message
                            Backend.find_in))
              "INBOX" [Samples.hello] (Some 0%nat) Samples.selected_inbox
              (Samples.mailbox 1 false
                 [Samples.message 1 ∅ false; Samples.message 2 {[Deleted]} false]
                 3 [0%nat]))
    as (dest & new & w' & m' & Hfind & Hnew & Hrun & _ & _ & _ & _ & Hrec).
  - reflexivity.
  - reflexivity.
  - intros sel [= <-]. eexists. reflexivity.
  - intros r Hr. apply list_elem_of_singleton in Hr as ->. eexists. reflexivity.
  - injection Hfind as <-. subst new. exists w'. split; [exact Hrun|].
    destruct Hrec as (before & Hb & Hafter). injection Hb as <-.
    rewrite Hafter. reflexivity.
Defined.

Lemma readonly_view_rejects_witness :
  expunge_mailbox Backend.SequenceSet Backend.all_uid Backend.find_in
    0%nat None Samples.readonly_view
  = (Raise (MailboxReadOnly "INBOX"), Samples.readonly_view)
  /\ update_flags Backend.SequenceSet Backend.find_in
       0%nat Samples.first_message {[Deleted]} ADD Samples.readonly_view
     = (Raise (MailboxReadOnly "INBOX"), Samples.readonly_view).
Proof.
  apply (readonly_view_rejects Backend.SequenceSet Backend.all_uid
           Backend.find_in 0%nat (Samples.view "INBOX" true false 1)).
  - reflexivity.
  - reflexivity.
Defined.

(** C5, counterexample: a view marked deleted is synchronised again once a
    mailbox of its name exists, and takes the new uidValidity. *)
Lemma deleted_view_synchronised_again :
  (sel_deleted <$> views Samples.recreated !! 0%nat) = Some true
  /\ (sel_uid_validity <$> views Samples.recreated !! 0%nat) = Some (Some 1)
  /\ fst (_load_updates (Some 0%nat) None Samples.recreated)
     = Return (Some 0%nat)
  /\ (sel_uid_validity
        <$> views (snd (_load_updates (Some 0%nat) None Samples.recreated))
            !! 0%nat)
     = Some (Some 2)
  /\ snd (_load_updates (Some 0%nat) None Samples.recreated)
     <> Samples.recreated.
Proof.
  split; [reflexivity|]. split; [reflexivity|]. split; [reflexivity|].
  split; [reflexivity|].
  intros Heq.
  assert (H : sel_uid_validity
                <$> views (snd (_load_updates (Some 0%nat) None Samples.recreated))
                    !! 0%nat = Some (Some 2)) by reflexivity.
  rewrite Heq in H. discriminate H.
Qed.

(** A store like [Samples.recreated] comes about through Append alone: the
    first call finds the mailbox of view 0 gone and marks the view deleted,
    the second creates a mailbox of that name and synchronises the deleted
    view against it. *)
Lemma deleted_view_revived_by_append :
  let append := append_messages Backend.AppendMessage Backend.parse_message in
  let w1 := snd (append "INBOX" [] (Some 0%nat) Samples.orphaned) in
  let w2 := snd (append "A" [Samples.hello] (Some 0%nat) w1) in
  (sel_deleted <$> views w1 !! 0%nat) = Some true
  /\ (sel_uid_validity <$> views w1 !! 0%nat) = Some (Some 1)
  /\ (sel_deleted <$> views w2 !! 0%nat) = Some true
  /\ (sel_uid_validity <$> views w2 !! 0%nat) = Some (Some 3)
  /\ session_recent w2 0%nat = Some {[ 1 ]}.
Proof. repeat split. Qed.

Lemma deleted_marker_sticky_witness :
  _load_updates (Some 0%nat) None Samples.still_deleted
  = (Return (Some 0%nat), Samples.still_deleted).
Proof.
  apply (deleted_marker_sticky 0%nat (Samples.view "A" false true 1) None
           Samples.still_deleted).
  - reflexivity.
  - reflexivity.
  - left. reflexivity.
  - reflexivity.
Defined.

(** C6, counterexample: Check and Fetch on a view whose mailbox is gone
    raise [MailboxNotFound], and the view is not marked deleted. *)
Lemma check_fetch_raise_not_found :
  check_mailbox Backend.cleanup 0%nat None false Samples.orphaned
  = (Raise (MailboxNotFound "A"), Samples.orphaned)
  /\ fetch_messages Backend.SequenceSet Backend.find_in
       0%nat Samples.first_message [Samples.body] Samples.orphaned
     = (Raise (MailboxNotFound "A"), Samples.orphaned)
  /\ (sel_deleted <$> views Samples.orphaned !! 0%nat) = Some false.
Proof. repeat split. Qed.

Lemma check_fetch_not_found_witness :
  check_mailbox Backend.cleanup 0%nat None true Samples.orphaned
  = (Raise (MailboxNotFound "A"), Samples.orphaned)
  /\ fetch_messages Backend.SequenceSet Backend.find_in
       0%nat Backend.all_uid [] Samples.orphaned
     = (Raise (MailboxNotFound "A"), Samples.orphaned).
Proof.
  apply (check_fetch_not_found Backend.SequenceSet Backend.cleanup
           Backend.find_in 0%nat (Samples.view "A" false false 1)).
  - reflexivity.
  - reflexivity.
Defined.

(** C7: Fetch of a body through a writable view hands [save_flags] one
    argument, the generator object, where the matched messages were meant.
    The call finds no message in it and raises, and the message of the
    store is left without the Seen flag. *)
Theorem fetch_seen_not_persisted :
  let stored :=
    Samples.mailbox 1 false
      [Samples.message 1 ∅ false; Samples.message 2 {[Deleted]} false]
      3 [0%nat] in
  let found :=
    add_seen <$> Backend.find_in Samples.first_message
                   (Samples.view "INBOX" false false 1) stored in
  mailboxes Samples.selected_inbox !! "INBOX" = Some stored
  /\ found = [(1, Samples.message 1 {[Seen]} false)]
  /\ fetch_save_args found = [PyGen [Samples.message 1 {[Seen]} false]]
  /\ fetch_save_args found <> [PyMsg (Samples.message 1 {[Seen]} false)]
  /\ fetch_messages Backend.SequenceSet Backend.find_in
       0%nat Samples.first_message [Samples.body] Samples.selected_inbox
     = (Raise AttributeError, Samples.selected_inbox)
  /\ Seen ∉ msg_permanent_flags (Samples.message 1 ∅ false).
Proof.
  intros stored found.
  split; [reflexivity|]. split; [reflexivity|]. split; [reflexivity|].
  split; [discriminate|]. split.
  - apply (fetch_seen_not_saved Backend.SequenceSet Backend.find_in 0%nat
             (Samples.view "INBOX" false false 1) stored); reflexivity.
  - simpl. apply not_elem_of_empty.
Qed.

(** C9, counterexample: a Copy through a view whose mailbox is gone raises
    [MailboxNotFound], also when the destination is that very name, and
    creates nothing. *)
Lemma copy_raises_not_found :
  mailboxes Samples.orphaned !! "A" = None
  /\ copy_messages Backend.SequenceSet Backend.find_in
       0%nat Backend.all_uid "A" Samples.orphaned
     = (Raise (MailboxNotFound "A"), Samples.orphaned)
  /\ mailboxes Samples.orphaned !! "B" = None
  /\ copy_messages Backend.SequenceSet Backend.find_in
       0%nat Backend.all_uid "B" Samples.orphaned
     = (Raise (MailboxNotFound "A"), Samples.orphaned).
Proof. repeat split. Qed.

Lemma destination_created_on_demand_witness :
  (exists uids w' m',
     append_messages Backend.AppendMessage Backend.parse_message
       "B" [Samples.hello] None Samples.unselected
     = (Return ((3, uids), None), w')
     /\ mailboxes w' !! "B" = Some m')
  /\ (exists uids w' m',
        copy_messages Backend.SequenceSet Backend.find_in
          0%nat Samples.first_message "B" Samples.selected_inbox
        = (Return ((3, uids), Some 0%nat), w')
        /\ mailboxes w' !! "B" = Some m').
Proof.
  split.
  - apply (proj1 (destination_created_on_demand Backend.SequenceSet
                    Backend.AppendMessage Backend.parse_message Backend.find_in)
             "B" [Samples.hello] None Samples.unselected).
    + reflexivity.
    + intros sel Hsel. discriminate Hsel.
  - apply (proj1 (proj2 (destination_created_on_demand Backend.SequenceSet
                           Backend.AppendMessage Backend.parse_message
                           Backend.find_in))
             0%nat Samples.first_message "B"
             (Samples.view "INBOX" false false 1)
             (Samples.mailbox 1 false
                [Samples.message 1 ∅ false; Samples.message 2 {[Deleted]} false]
                3 [0%nat])
             Samples.selected_inbox).
    + reflexivity.
    + reflexivity.
    + reflexivity.
Defined.

Lemma select_readonly_disjunction_witness :
  exists snap w' v',
    select_mailbox "INBOX" false Samples.readonly_inbox
    = (Return (snap, Some (fresh (dom (views Samples.readonly_inbox)))), w')
    /\ views w' !! fresh (dom (views Samples.readonly_inbox)) = Some v'
    /\ sel_readonly v' = true
    /\ expunge_mailbox Backend.SequenceSet Backend.all_uid Backend.find_in
         (fresh (dom (views Samples.readonly_inbox))) None w'
       = (Raise (MailboxReadOnly "INBOX"), w').
Proof.
  destruct (select_readonly_disjunction Backend.SequenceSet Backend.all_uid
              Backend.find_in "INBOX" false
              (Samples.mailbox 1 true [Samples.message 1 ∅ true] 2 [])
              Samples.readonly_inbox eq_refl)
    as (snap & w' & v' & Hrun & Hv' & _ & Hro & Hreject).
  exists snap, w', v'. split; [exact Hrun|]. split; [exact Hv'|].
  split; [exact Hro|].
  apply (Hreject eq_refl None Samples.first_message ∅ REPLACE).
Defined.

(** ** Further properties on the sample stores *)

Lemma load_updates_frame_witness :
  exists v',
    views (snd (_load_updates (Some 0%nat) None Samples.orphaned)) !! 0%nat
    = Some v'
    /\ sel_name v' = "A"
    /\ mailboxes (snd (_load_updates (Some 0%nat) None Samples.orphaned))
       = mailboxes Samples.orphaned.
Proof.
  destruct (proj2 (proj2 (proj2
              (load_updates_frame (Some 0%nat) None Samples.orphaned)))
              0%nat (Samples.view "A" false false 1) eq_refl)
    as (v' & Hv' & Hname & _).
  exists v'. split; [exact Hv'|]. split; [exact Hname|].
  apply (proj1 (load_updates_frame (Some 0%nat) None Samples.orphaned)).
Defined.


Lemma missing_mailbox_raises_witness :
  select_mailbox "Nowhere" false Samples.unselected
  = (Raise (MailboxNotFound "Nowhere"), Samples.unselected)
  /\ search_mailbox Backend.SearchKeys Backend.matches
       0%nat Samples.deleted_messages Samples.orphaned
     = (Raise (MailboxNotFound "A"), Samples.orphaned).
Proof.
  split.
  - apply (proj1 (missing_mailbox_raises Backend.SequenceSet Backend.all_uid
                    Backend.find_in Backend.SearchKeys Backend.matches)
             "Nowhere" false None Samples.unselected).
    reflexivity.
  - apply (proj2 (missing_mailbox_raises Backend.SequenceSet Backend.all_uid
                    Backend.find_in Backend.SearchKeys Backend.matches)
             0%nat (Samples.view "A" false false 1) Samples.deleted_messages
             None Samples.first_message ∅ REPLACE Samples.orphaned);
      reflexivity.
Defined.

Lemma readonly_destination_rejects_witness :
  append_messages Backend.AppendMessage Backend.parse_message
    "Locked" [Samples.hello] (Some 0%nat) Samples.with_archive
  = (Raise (MailboxReadOnly "Locked"), Samples.with_archive)
  /\ copy_messages Backend.SequenceSet Backend.find_in
       0%nat Samples.first_message "Locked" Samples.with_archive
     = (Raise (MailboxReadOnly "Locked"), Samples.with_archive).
Proof.
  split.
  - apply (proj1 (readonly_destination_rejects Backend.SequenceSet
                    Backend.AppendMessage Backend.parse_message
                    Backend.find_in)
             "Locked" [Samples.hello] (Some 0%nat) Samples.locked);
      reflexivity.
  - apply (proj2 (readonly_destination_rejects Backend.SequenceSet
                    Backend.AppendMessage Backend.parse_message
                    Backend.find_in)
             0%nat Samples.first_message "Locked" Samples.inbox_view
             Samples.inbox_selected Samples.locked);
      reflexivity.
Defined.

Lemma expunge_removes_deleted_witness :
  exists w' m',
    expunge_mailbox Backend.SequenceSet Backend.all_uid Backend.find_in
      0%nat None Samples.selected_inbox
    = (Return (Some 0%nat), w')
    /\ mailboxes w' !! "INBOX" = Some m'
    /\ mbx_messages m' = [Samples.message 1 ∅ false].
Proof.
  destruct (expunge_removes_deleted Backend.SequenceSet Backend.all_uid
              Backend.find_in 0%nat Samples.inbox_view Samples.inbox_selected
              None Samples.selected_inbox eq_refl eq_refl eq_refl)
    as (doomed & w' & m' & -> & Hrun & Hmb & Hmsgs & _).
  exists w', m'. split; [exact Hrun|]. split.
  - rewrite Hmb. apply lookup_insert_eq.
  - rewrite Hmsgs. reflexivity.
Defined.



Lemma copy_store_effect_witness :
  exists new w' m',
    copy_messages Backend.SequenceSet Backend.find_in
      0%nat Samples.first_message "Archive" Samples.with_archive
    = (Return ((5, zip [1] (msg_uid <$> new)), Some 0%nat), w')
    /\ mailboxes w' !! "INBOX" = Some Samples.inbox_selected
    /\ mbx_messages m' = new
    /\ length new = 1%nat.
Proof.
  destruct (copy_store_effect Backend.SequenceSet Backend.find_in
              0%nat Samples.first_message "Archive" Samples.inbox_view
              Samples.inbox_selected Samples.archive Samples.with_archive
              eq_refl eq_refl eq_refl)
    as (new & w' & m' & Hrun & _ & Hsrc & Hmsgs & Hlen & _).
  - discriminate.
  - reflexivity.
  - intros r Hr. inversion Hr.
  - exists new, w', m'. split; [exact Hrun|]. split; [exact Hsrc|].
    split; [exact Hmsgs|exact Hlen].
Defined.

Lemma select_readonly_claims_nothing_witness :
  exists snap w' m',
    select_mailbox "INBOX" true Samples.unselected
    = (Return (snap, Some (fresh (dom (views Samples.unselected)))), w')
    /\ mailboxes w' !! "INBOX" = Some m'
    /\ mbx_messages m' = mbx_messages Samples.inbox
    /\ session_recent w' (fresh (dom (views Samples.unselected))) = Some ∅.
Proof.
  destruct (select_readonly_claims_nothing "INBOX" true Samples.inbox
              Samples.unselected eq_refl eq_refl)
    as (snap & w' & m' & v' & Hrun & Hmb & Hmsgs & Hv' & _ & Hrec & _).
  exists snap, w', m'. split; [exact Hrun|]. split.
  - rewrite Hmb. apply lookup_insert_eq.
  - split; [exact Hmsgs|]. unfold session_recent. rewrite Hv'. simpl.
    now rewrite Hrec.
Defined.

Lemma second_select_claims_nothing_witness :
  exists snap second w',
    select_mailbox "INBOX" false
      (snd (select_mailbox "INBOX" false Samples.unselected))
    = (Return (snap, Some second), w')
    /\ session_recent w' second = Some ∅
    /\ session_recent w' (fresh (dom (views Samples.unselected)))
       = Some (recent_uids (mbx_messages Samples.inbox)).
Proof.
  destruct (second_select_claims_nothing "INBOX" false Samples.inbox
              Samples.unselected eq_refl eq_refl)
    as (snap & first & second & w' & v' & -> & Hrun & _ & Hv' & Hnone & Hrec).
  exists snap, second, w'. split; [exact Hrun|]. split; [|exact Hrec].
  unfold session_recent. rewrite Hv'. simpl. now rewrite Hnone.
Defined.


Lemma search_results_witness :
  exists found w',
    search_mailbox Backend.SearchKeys Backend.matches
      0%nat Samples.deleted_messages Samples.selected_inbox
    = (Return (found, Some 0%nat), w')
    /\ (2, Samples.message 2 {[Deleted]} false) ∈ found
    /\ mailboxes w' = mailboxes Samples.selected_inbox.
Proof.
  destruct (search_results Backend.SearchKeys Backend.matches 0%nat
              Samples.inbox_view Samples.inbox_selected
              Samples.deleted_messages Samples.selected_inbox eq_refl eq_refl)
    as (found & w' & Hrun & Hiff & _ & Hmb & _).
  exists found, w'. split; [exact Hrun|]. split; [|exact Hmb].
  apply Hiff. split; [lia|]. split; reflexivity.
Defined.

Lemma list_mailboxes_empty_filter_witness :
  exists w',
    list_mailboxes "/" Backend.list_mailboxes Backend.list_subscribed
      Backend.list_matching "" "" true (Some 0%nat) Samples.orphaned
    = (Return ([("", Some "/", ["Noselect"])], Some 0%nat), w')
    /\ w' = set_view 0 (set_deleted (Samples.view "A" false false 1))
              Samples.orphaned.
Proof.
  destruct (proj2 (list_mailboxes_empty_filter "/" Backend.list_mailboxes
                     Backend.list_subscribed Backend.list_matching "" true)
              0%nat (Samples.view "A" false false 1) Samples.orphaned eq_refl)
    as (w' & Hrun & _ & Hgone).
  exists w'. split; [exact Hrun|]. apply Hgone. reflexivity.
Defined.

Lemma removed_mailbox_marks_view_witness :
  delete_mailbox Backend.remove_mailbox "Archive" (Some 0%nat)
    Samples.archive_selected
  = (Return (Some 0%nat),
     set_view 0 (set_deleted Samples.archive_view)
       (snd (Backend.remove_mailbox "Archive" Samples.archive_selected)))
  /\ rename_mailbox Backend.rename_mailbox "Archive" "Attic" (Some 0%nat)
       Samples.archive_selected
     = (Return (Some 0%nat),
        set_view 0 (set_deleted Samples.archive_view)
          (snd (Backend.rename_mailbox "Archive" "Attic"
                  Samples.archive_selected))).
Proof.
  split.
  - apply (proj1 (removed_mailbox_marks_view Backend.add_mailbox
                    Backend.remove_mailbox Backend.rename_mailbox)
             "Archive" 0%nat Samples.archive_view Samples.archive_selected);
      reflexivity.
  - apply (proj1 (proj2 (removed_mailbox_marks_view Backend.add_mailbox
                           Backend.remove_mailbox Backend.rename_mailbox))
             "Archive" "Attic" 0%nat Samples.archive_view
             Samples.archive_selected);
      reflexivity.
Defined.

Lemma get_mailbox_reports_witness :
  exists w',
    session_get_mailbox "INBOX" (Some 0%nat) Samples.orphaned
    = (Return (snapshot_of Samples.inbox, Some 0%nat), w')
    /\ w' = set_view 0 (set_deleted (Samples.view "A" false false 1))
              Samples.orphaned.
Proof.
  destruct (get_mailbox_reports "INBOX" (Some 0%nat) Samples.inbox
              Samples.orphaned eq_refl)
    as (w' & Hrun & _ & _ & Hview).
  - intros sel [= <-]. eexists. reflexivity.
  - exists w'. split; [exact Hrun|].
    apply (proj2 (Hview 0%nat (Samples.view "A" false false 1)
                    eq_refl eq_refl)).
    reflexivity.
Defined.



Lemma fetch_without_seen_witness :
  fetch_messages Backend.SequenceSet Backend.find_in
    0%nat Samples.first_message [Samples.body] Samples.readonly_view
  = (Return ([(1, Samples.message 1 ∅ true)], Some 0%nat),
     set_view 0
       (synced (Samples.view "INBOX" true false 1)
          (Samples.mailbox 1 false
             [Samples.message 1 ∅ true; Samples.message 2 {[Deleted]} false]
             3 [0%nat]))
       Samples.readonly_view).
Proof.
  apply (fetch_without_seen Backend.SequenceSet Backend.find_in 0%nat
           (Samples.view "INBOX" true false 1)
           (Samples.mailbox 1 false
              [Samples.message 1 ∅ true; Samples.message 2 {[Deleted]} false]
              3 [0%nat])
           Samples.first_message [Samples.body] Samples.readonly_view).
  - reflexivity.
  - reflexivity.
  - left. reflexivity.
Defined.
